(** * The timemory connector of kokkos-tools: session registry and event router

    A shallow embedding of [profiling/timemory-connector/kp_timemory.cpp].
    The connector keeps, per thread, a handle counter, a map from handles to
    measurement bundles, a second (section) map and a stack of bundles; the
    [kokkosp_*] callbacks translate the runtime's lifecycle events into
    operations on them.

    The measurement bundle [profile_entry_t] belongs to the timemory library.
    It is modelled as an opaque object that remembers its name and the calls
    it has received; every call the connector makes on a bundle is also
    appended to a per-thread trace, so that the order of calls can be stated.
    The trace follows bundles, not C++ objects: moving a bundle into a pair or
    into a container is no event, and a bundle is destroyed once, when the
    last object holding it goes away. *)

From Stdlib Require Import NArith Lia List String Ascii.
From Stdlib Require HexadecimalString.
From stdpp Require Import base option list gmap strings pretty.

Local Open Scope N_scope.
Local Open Scope string_scope.
Local Open Scope list_scope.

(** ** Data model *)

(** The calls a bundle can receive after its construction. *)
Inductive call : Type :=
  | call_start
  | call_stop.

(** [profile_entry_t]: a timemory [component_tuple].  [key] and [store] are the
    two constructor arguments; [calls] is the history of [start()]/[stop()]
    invocations, oldest first. *)
Record profile_entry_t : Type := mk_profile_entry {
  key : string;
  store : bool;
  calls : list call
}.

(** [section_entry_t = std::tuple<std::string, profile_entry_t>] *)
Definition section_entry_t : Type := (string * profile_entry_t)%type.

(** What the connector asks of the measurement library, in program order. *)
Inductive event : Type :=
  | ev_construct (pname : string)
  | ev_start (pname : string)
  | ev_stop (pname : string)
  | ev_destruct (pname : string)
  | ev_timemory_finalize.

(** The thread-local objects of the translation unit: the counter inside
    [get_unique_id], the three [get_tl_static] instances, and the trace.
    The vector [profile_stack] is listed front first, so its back is the last
    element of the list. *)
Record tl_state : Type := mk_tl_state {
  unique_id : N;
  profile_map : gmap N profile_entry_t;
  section_map : gmap N section_entry_t;
  profile_stack : list profile_entry_t;
  trace : list event
}.

(** A thread that has not yet run any callback. *)
Definition tl_init : tl_state :=
  {| unique_id := 0; profile_map := ∅; section_map := ∅;
     profile_stack := []; trace := [] |}.

Definition set_unique_id (n : N) (st : tl_state) : tl_state :=
  {| unique_id := n; profile_map := profile_map st;
     section_map := section_map st; profile_stack := profile_stack st;
     trace := trace st |}.

Definition set_profile_map (m : gmap N profile_entry_t) (st : tl_state) : tl_state :=
  {| unique_id := unique_id st; profile_map := m;
     section_map := section_map st; profile_stack := profile_stack st;
     trace := trace st |}.

Definition set_profile_stack (s : list profile_entry_t) (st : tl_state) : tl_state :=
  {| unique_id := unique_id st; profile_map := profile_map st;
     section_map := section_map st; profile_stack := s;
     trace := trace st |}.

Definition emit (evs : list event) (st : tl_state) : tl_state :=
  {| unique_id := unique_id st; profile_map := profile_map st;
     section_map := section_map st; profile_stack := profile_stack st;
     trace := trace st ++ evs |}.

(** An out-parameter ([uint64_t* kernid], [uint32_t* secid]): the address the
    caller passes and the value stored there. *)
Record out_param : Type := mk_out_param {
  address : N;
  pointee : N
}.

Definition uint64_max : N := 2 ^ 64.
Definition uint32_max : N := 2 ^ 32.

(** ** The monad of the callbacks

    A callback runs on the thread-local state and either completes or leaves
    by a C++ exception ([unordered_map::at] on a missing key) or by undefined
    behaviour ([vector::back] on an empty vector). *)

Inductive failure : Type :=
  | out_of_range
  | undefined_behaviour.

Inductive result (A : Type) : Type :=
  | Ok (a : A)
  | Throw (e : failure).
Arguments Ok {A} a.
Arguments Throw {A} e.

Definition M (A : Type) : Type := tl_state → result (A * tl_state).

Definition ret {A} (a : A) : M A := λ st, Ok (a, st).

Definition bind {A B} (m : M A) (f : A → M B) : M B :=
  λ st, match m st with
        | Ok (a, st') => f a st'
        | Throw e => Throw e
        end.

Definition gets {A} (f : tl_state → A) : M A := λ st, Ok (f st, st).

Definition modify (f : tl_state → tl_state) : M unit := λ st, Ok (tt, f st).

Declare Scope kp_scope.
Delimit Scope kp_scope with kp.
Notation "x <- c1 ;; c2" := (bind c1 (λ x, c2))
  (at level 100, c1 at next level, right associativity) : kp_scope.
Notation "c1 ;; c2" := (bind c1 (λ _, c2))
  (at level 100, right associativity) : kp_scope.
Local Open Scope kp_scope.

(** ** The measurement bundle *)

(** [profile_entry_t(pname, true)] *)
Definition construct (pname : string) (flag : bool) : M profile_entry_t :=
  modify (emit [ev_construct pname]) ;;
  ret {| key := pname; store := flag; calls := [] |}.

Definition entry_start (e : profile_entry_t) : profile_entry_t :=
  {| key := key e; store := store e; calls := calls e ++ [call_start] |}.

Definition entry_stop (e : profile_entry_t) : profile_entry_t :=
  {| key := key e; store := store e; calls := calls e ++ [call_stop] |}.

(** ** Strings *)

(** Modelled from the spec: the macro [TIMEMORY_JOIN(delim, ...)] comes from
    the timemory headers, which are not part of the sources.  Going by the
    qualified names the specification gives it streams its arguments into one
    string, with the delimiter between consecutive arguments. *)
Fixpoint TIMEMORY_JOIN (delim : string) (args : list string) : string :=
  match args with
  | [] => ""
  | [a] => a
  | a :: rest => a +:+ delim +:+ TIMEMORY_JOIN delim rest
  end.

(** [operator<<] on an unsigned integer: decimal, no padding. *)
Definition show_unsigned (n : N) : string := pretty n.

(** [operator<<] on a pointer: the address in hexadecimal after "0x", as
    libstdc++ and libc++ print it. *)
Definition show_pointer (a : N) : string :=
  "0x" +:+ HexadecimalString.NilZero.string_of_uint (N.to_hex_uint a).

(** ** Handle allocator *)

(** [return _instance++;] on a [uint64_t]. *)
Definition get_unique_id : M N :=
  λ st, Ok (unique_id st,
            set_unique_id ((unique_id st + 1) mod uint64_max) st).

(** ** Session registry *)

(** [get_profile_map().find(kernid) != get_profile_map().end()] *)
Definition profile_map_contains (kernid : N) : M bool :=
  gets (λ st, bool_decide (is_Some (profile_map st !! kernid))).

(** [get_profile_map().insert(std::make_pair(kernid, e))]: an existing
    element under [kernid] is kept; [e] then has no place to live and is
    destroyed with the temporary pair, at the end of the statement. *)
Definition profile_map_insert (kernid : N) (e : profile_entry_t) : M unit :=
  modify (λ st, match profile_map st !! kernid with
                | Some _ => emit [ev_destruct (key e)] st
                | None => set_profile_map (<[kernid := e]> (profile_map st)) st
                end).

(** [get_profile_map().erase(kernid)] *)
Definition profile_map_erase (kernid : N) : M unit :=
  modify (λ st, match profile_map st !! kernid with
                | Some e => emit [ev_destruct (key e)]
                              (set_profile_map (delete kernid (profile_map st)) st)
                | None => st
                end).

(** [get_profile_map().at(kernid).start()] *)
Definition profile_map_at_start (kernid : N) : M unit :=
  λ st, match profile_map st !! kernid with
        | Some e => Ok (tt, emit [ev_start (key e)]
                              (set_profile_map (<[kernid := entry_start e]> (profile_map st)) st))
        | None => Throw out_of_range
        end.

(** [get_profile_map().at(kernid).stop()] *)
Definition profile_map_at_stop (kernid : N) : M unit :=
  λ st, match profile_map st !! kernid with
        | Some e => Ok (tt, emit [ev_stop (key e)]
                              (set_profile_map (<[kernid := entry_stop e]> (profile_map st)) st))
        | None => Throw out_of_range
        end.

Definition create_profiler (pname : string) (kernid : N) : M unit :=
  e <- construct pname true ;;
  profile_map_insert kernid e.

Definition destroy_profiler (kernid : N) : M unit :=
  found <- profile_map_contains kernid ;;
  if found then profile_map_erase kernid else ret tt.

Definition start_profiler (kernid : N) : M unit :=
  found <- profile_map_contains kernid ;;
  if found then profile_map_at_start kernid else ret tt.

Definition stop_profiler (kernid : N) : M unit :=
  found <- profile_map_contains kernid ;;
  if found then profile_map_at_stop kernid else ret tt.

(** The stack: [push_back], [back().start()], [empty()], [back().stop()]
    and [pop_back()]. *)
Definition profile_stack_push_back (e : profile_entry_t) : M unit :=
  modify (λ st, set_profile_stack (profile_stack st ++ [e]) st).

Definition profile_stack_empty : M bool :=
  gets (λ st, bool_decide (profile_stack st = [])).

Definition profile_stack_back_start : M unit :=
  λ st, match last (profile_stack st) with
        | Some e => Ok (tt, emit [ev_start (key e)]
                              (set_profile_stack
                                 (removelast (profile_stack st) ++ [entry_start e]) st))
        | None => Throw undefined_behaviour
        end.

Definition profile_stack_back_stop : M unit :=
  λ st, match last (profile_stack st) with
        | Some e => Ok (tt, emit [ev_stop (key e)]
                              (set_profile_stack
                                 (removelast (profile_stack st) ++ [entry_stop e]) st))
        | None => Throw undefined_behaviour
        end.

Definition profile_stack_pop_back : M unit :=
  λ st, match last (profile_stack st) with
        | Some e => Ok (tt, emit [ev_destruct (key e)]
                              (set_profile_stack (removelast (profile_stack st)) st))
        | None => Throw undefined_behaviour
        end.

(** ** Event router

    [profile_entry_size] is [profile_entry_t::size()], the number of
    components compiled into the bundle.  Every callback but the two library
    ones tests it with [if_constexpr], which is [if constexpr] or a plain [if]
    depending on the language standard; both take the same branch.
    [kokkosp_init_library] configures the measurement library and touches
    none of the thread-local objects; it is left out. *)

Section EventRouter.

Variable profile_entry_size : nat.

Definition enabled : bool := bool_decide (0 < profile_entry_size)%nat.

(** The name every kernel callback builds:
    [TIMEMORY_JOIN("/", "kokkos", TIMEMORY_JOIN("", "dev", devid), name)]. *)
Definition kernel_pname (name : string) (devid : N) : string :=
  TIMEMORY_JOIN "/" ["kokkos"; TIMEMORY_JOIN "" ["dev"; show_unsigned devid]; name].

Definition kokkosp_begin_parallel_for
    (name : string) (devid : N) (kernid : out_param) : M out_param :=
  if enabled then
    let pname := kernel_pname name devid in
    id <- get_unique_id ;;
    let kernid' := {| address := address kernid; pointee := id |} in
    create_profiler pname (pointee kernid') ;;
    start_profiler (pointee kernid') ;;
    ret kernid'
  else ret kernid.

Definition kokkosp_end_parallel_for (kernid : N) : M unit :=
  if enabled then
    stop_profiler kernid ;;
    destroy_profiler kernid
  else ret tt.

Definition kokkosp_begin_parallel_reduce
    (name : string) (devid : N) (kernid : out_param) : M out_param :=
  if enabled then
    let pname := kernel_pname name devid in
    id <- get_unique_id ;;
    let kernid' := {| address := address kernid; pointee := id |} in
    create_profiler pname (pointee kernid') ;;
    start_profiler (pointee kernid') ;;
    ret kernid'
  else ret kernid.

Definition kokkosp_end_parallel_reduce (kernid : N) : M unit :=
  if enabled then
    stop_profiler kernid ;;
    destroy_profiler kernid
  else ret tt.

Definition kokkosp_begin_parallel_scan
    (name : string) (devid : N) (kernid : out_param) : M out_param :=
  if enabled then
    let pname := kernel_pname name devid in
    id <- get_unique_id ;;
    let kernid' := {| address := address kernid; pointee := id |} in
    create_profiler pname (pointee kernid') ;;
    start_profiler (pointee kernid') ;;
    ret kernid'
  else ret kernid.

Definition kokkosp_end_parallel_scan (kernid : N) : M unit :=
  if enabled then
    stop_profiler kernid ;;
    destroy_profiler kernid
  else ret tt.

Definition kokkosp_push_profile_region (name : string) : M unit :=
  if enabled then
    e <- construct name true ;;
    profile_stack_push_back e ;;
    profile_stack_back_start
  else ret tt.

Definition kokkosp_pop_profile_region : M unit :=
  if enabled then
    is_empty <- profile_stack_empty ;;
    if is_empty then ret tt
    else
      profile_stack_back_stop ;;
      profile_stack_pop_back
  else ret tt.

(** [*secid = get_unique_id()] narrows the 64-bit id to 32 bits.  The inner
    join is given [secid], the pointer, not [*secid]. *)
Definition kokkosp_create_profile_section
    (name : string) (secid : out_param) : M out_param :=
  if enabled then
    id <- get_unique_id ;;
    let secid' := {| address := address secid; pointee := id mod uint32_max |} in
    let pname :=
      TIMEMORY_JOIN "/"
        ["kokkos"; TIMEMORY_JOIN "" ["section"; show_pointer (address secid')]; name] in
    create_profiler pname (pointee secid') ;;
    ret secid'
  else ret secid.

Definition kokkosp_destroy_profile_section (secid : N) : M unit :=
  if enabled then destroy_profiler secid else ret tt.

Definition kokkosp_start_profile_section (secid : N) : M unit :=
  if enabled then start_profiler secid else ret tt.

Definition kokkosp_stop_profile_section (secid : N) : M unit :=
  if enabled then start_profiler secid else ret tt.

(** The callbacks guarded by [if_constexpr], as the runtime issues them. *)
Inductive callback : Type :=
  | begin_parallel_for (name : string) (devid : N) (kernid : out_param)
  | end_parallel_for (kernid : N)
  | begin_parallel_reduce (name : string) (devid : N) (kernid : out_param)
  | end_parallel_reduce (kernid : N)
  | begin_parallel_scan (name : string) (devid : N) (kernid : out_param)
  | end_parallel_scan (kernid : N)
  | push_profile_region (name : string)
  | pop_profile_region
  | create_profile_section (name : string) (secid : out_param)
  | destroy_profile_section (secid : N)
  | start_profile_section (secid : N)
  | stop_profile_section (secid : N).

Definition discard {A} (m : M A) : M unit := _ <- m ;; ret tt.

Definition dispatch (c : callback) : M unit :=
  match c with
  | begin_parallel_for n d k => discard (kokkosp_begin_parallel_for n d k)
  | end_parallel_for k => kokkosp_end_parallel_for k
  | begin_parallel_reduce n d k => discard (kokkosp_begin_parallel_reduce n d k)
  | end_parallel_reduce k => kokkosp_end_parallel_reduce k
  | begin_parallel_scan n d k => discard (kokkosp_begin_parallel_scan n d k)
  | end_parallel_scan k => kokkosp_end_parallel_scan k
  | push_profile_region n => kokkosp_push_profile_region n
  | pop_profile_region => kokkosp_pop_profile_region
  | create_profile_section n s => discard (kokkosp_create_profile_section n s)
  | destroy_profile_section s => kokkosp_destroy_profile_section s
  | start_profile_section s => kokkosp_start_profile_section s
  | stop_profile_section s => kokkosp_stop_profile_section s
  end.

(** A sequence of callbacks on one thread. *)
Fixpoint run (cs : list callback) : M unit :=
  match cs with
  | [] => ret tt
  | c :: cs' => dispatch c ;; run cs'
  end.

End EventRouter.

(** The order in which a [std::unordered_map] hands out its elements is left
    to the implementation.  A [map_order] is one such order: for every map an
    enumeration of its elements, each exactly once. *)
Record map_order : Type := mk_map_order {
  enumerate : gmap N profile_entry_t → list (N * profile_entry_t);
  enumerate_perm : ∀ m, enumerate m ≡ₚ map_to_list m
}.

(** Two orders, for the examples: by the key's position in the [gmap], and
    the same backwards. *)
Definition gmap_order : map_order :=
  {| enumerate := map_to_list;
     enumerate_perm := λ m, reflexivity (map_to_list m) |}.

Definition gmap_order_reversed : map_order :=
  {| enumerate := λ m, reverse (map_to_list m);
     enumerate_perm := λ m, reverse_Permutation (map_to_list m) |}.

(** [kokkosp_finalize_library] is not guarded.  The range-for over the map
    stops every bundle, in the order of iteration [sweep]; [clear()] then
    destroys them, in an order [cleared] of its own;
    [tim::timemory_finalize()] belongs to the library. *)
Definition profile_map_stop_all (sweep : map_order) : M unit :=
  modify (λ st, emit ((λ kv, ev_stop (key kv.2)) <$> enumerate sweep (profile_map st))
                  (set_profile_map (entry_stop <$> profile_map st) st)).

Definition profile_map_clear (cleared : map_order) : M unit :=
  modify (λ st, emit ((λ kv, ev_destruct (key kv.2)) <$> enumerate cleared (profile_map st))
                  (set_profile_map ∅ st)).

Definition timemory_finalize : M unit :=
  modify (emit [ev_timemory_finalize]).

Definition kokkosp_finalize_library (sweep cleared : map_order) : M unit :=
  profile_map_stop_all sweep ;;
  profile_map_clear cleared ;;
  timemory_finalize.

(** ** Vocabulary of the statements *)

(** The state after [at(k).start()], [at(k).stop()] and [erase(k)] on a
    registered bundle [e]. *)
Definition started (k : N) (e : profile_entry_t) (st : tl_state) : tl_state :=
  emit [ev_start (key e)] (set_profile_map (<[k := entry_start e]> (profile_map st)) st).

Definition stopped (k : N) (e : profile_entry_t) (st : tl_state) : tl_state :=
  emit [ev_stop (key e)] (set_profile_map (<[k := entry_stop e]> (profile_map st)) st).

Definition erased (k : N) (e : profile_entry_t) (st : tl_state) : tl_state :=
  emit [ev_destruct (key e)] (set_profile_map (delete k (profile_map st)) st).

(** The state a kernel begin leaves behind: the counter advanced, the bundle
    constructed, inserted unless the handle is taken (it is destroyed then),
    and whatever bundle is found under the handle after that started. *)
Definition begun (pname : string) (st : tl_state) : tl_state :=
  let id := unique_id st in
  let st1 := emit [ev_construct pname]
               (set_unique_id ((id + 1) mod uint64_max) st) in
  match profile_map st !! id with
  | Some e => started id e (emit [ev_destruct pname] st1)
  | None =>
      let e := mk_profile_entry pname true [] in
      started id e (set_profile_map (<[id := e]> (profile_map st)) st1)
  end.

(** The name a section is created under, for the address of the
    out-parameter. *)
Definition section_pname (name : string) (a : N) : string :=
  TIMEMORY_JOIN "/" ["kokkos"; TIMEMORY_JOIN "" ["section"; show_pointer a]; name].

Definition section_created (pname : string) (st : tl_state) : tl_state :=
  let id := unique_id st in
  let st1 := emit [ev_construct pname]
               (set_unique_id ((id + 1) mod uint64_max) st) in
  match profile_map st !! (id mod uint32_max) with
  | Some _ => emit [ev_destruct pname] st1
  | None => set_profile_map
              (<[id mod uint32_max := mk_profile_entry pname true []]> (profile_map st)) st1
  end.

(** What a single callback can do to the counter, to the handles of the
    profile map and to the section map. *)
Definition counter_step (st st' : tl_state) : Prop :=
  unique_id st' = unique_id st
  ∨ unique_id st' = (unique_id st + 1) mod uint64_max.

Definition handles_step (st st' : tl_state) : Prop :=
  ∀ k, is_Some (profile_map st' !! k) →
       is_Some (profile_map st !! k)
       ∨ ((k ≤ unique_id st)%N ∧ unique_id st' = (unique_id st + 1) mod uint64_max).

Record effect (st st' : tl_state) : Prop := mk_effect {
  effect_section_map : section_map st' = section_map st;
  effect_counter : counter_step st st';
  effect_handles : handles_step st st'
}.

Definition handles_below_counter (st : tl_state) : Prop :=
  ∀ k, is_Some (profile_map st !! k) → (k < unique_id st)%N.

(** The stops and the destructions of the bundles of a map, one per element,
    listed as [map_to_list] has them; the statements use these lists up to
    permutation. *)
Definition stop_events (m : gmap N profile_entry_t) : list event :=
  (λ kv, ev_stop (key kv.2)) <$> map_to_list m.

Definition destruct_events (m : gmap N profile_entry_t) : list event :=
  (λ kv, ev_destruct (key kv.2)) <$> map_to_list m.

(** Counting the pushes and the pops of a sequence. *)
Fixpoint pushes (cs : list callback) : nat :=
  match cs with
  | [] => 0
  | push_profile_region _ :: cs' => S (pushes cs')
  | _ :: cs' => pushes cs'
  end.

Fixpoint pops (cs : list callback) : nat :=
  match cs with
  | [] => 0
  | pop_profile_region :: cs' => S (pops cs')
  | _ :: cs' => pops cs'
  end.

(** No pop of the sequence meets an empty stack, for a stack that starts at
    depth [d]: every prefix has at most [d] more pops than pushes. *)
Fixpoint never_underflows (d : nat) (cs : list callback) : bool :=
  match cs with
  | [] => true
  | push_profile_region _ :: cs' => never_underflows (S d) cs'
  | pop_profile_region :: cs' =>
      match d with
      | O => false
      | S d' => never_underflows d' cs'
      end
  | _ :: cs' => never_underflows d cs'
  end.

(** The stack after one callback. *)
Definition stack_after (c : callback) (s : list profile_entry_t) : list profile_entry_t :=
  match c with
  | push_profile_region name => s ++ [mk_profile_entry name true [call_start]]
  | pop_profile_region => removelast s
  | _ => s
  end.

(** Strings of decimal digits. *)
Definition is_digit (c : ascii) : bool :=
  (48 <=? nat_of_ascii c)%nat && (nat_of_ascii c <=? 57)%nat.

Fixpoint all_digits (s : string) : bool :=
  match s with
  | EmptyString => true
  | String c s' => is_digit c && all_digits s'
  end.

(** Reading a decimal numeral, independently of how one is printed: the
    value of a digit, the value of a string of digits read from the left, and
    what it is for a string to be the decimal numeral of a number (it reads as
    that number and has no superfluous leading zero; the empty string is not a
    numeral). *)
Definition digit_value (c : ascii) : option N :=
  let n := N.of_nat (nat_of_ascii c) in
  if (48 <=? n)%N && (n <=? 57)%N then Some (n - 48)%N else None.

Fixpoint decimal_value_from (acc : N) (s : string) : option N :=
  match s with
  | EmptyString => Some acc
  | String c s' =>
      match digit_value c with
      | Some v => decimal_value_from (10 * acc + v) s'
      | None => None
      end
  end.

Definition decimal_value (s : string) : option N :=
  match s with
  | EmptyString => None
  | String _ _ => decimal_value_from 0 s
  end.

Definition leading_zero (s : string) : bool :=
  match s with
  | String c (String _ _) => Ascii.eqb c "0"
  | _ => false
  end.

Definition is_decimal_of (s : string) (n : N) : Prop :=
  decimal_value s = Some n ∧ leading_zero s = false.

(** An out-parameter on the caller's stack, for the examples. *)
Definition example_out : out_param :=
  {| address := 140725000000000; pointee := 77 |}.

(** A thread on which one kernel has begun: handle 0 is registered. *)
Definition example_begun : tl_state :=
  begun (kernel_pname "saxpy" 2) tl_init.

(** Sequences of callbacks for the examples. *)
Definition example_pop_then_push : list callback :=
  [pop_profile_region; push_profile_region "a"].

Definition example_regions : list callback :=
  [push_profile_region "outer"; push_profile_region "inner";
   pop_profile_region; begin_parallel_for "saxpy" 2 example_out;
   push_profile_region "next"].

(** ** Library initialization: the component selection

    [kokkosp_init_library] computes the list of components to configure from
    two environment variables; the computation is on strings only.  The
    settings it stores and the calls into the library are left out. *)

(** Modelled from the spec: [tim::get_env(name, default)] belongs to the
    timemory headers, which are not part of the sources.  It yields the value
    of the environment variable when it is set and the default otherwise; the
    result of the lookup is passed in as an option. *)
Definition get_env {A} (value : option A) (default : A) : A :=
  match value with
  | Some v => v
  | None => default
  end.

(** [std::tolower] on an [unsigned char], in the "C" locale. *)
Definition tolower (c : ascii) : ascii :=
  let n := nat_of_ascii c in
  if (65 <=? n)%nat && (n <=? 90)%nat then ascii_of_nat (n + 32) else c.

(** [std::transform(s.begin(), s.end(), s.begin(), tolower)] *)
Fixpoint transform_tolower (s : string) : string :=
  match s with
  | EmptyString => EmptyString
  | String c s' => String (tolower c) (transform_tolower s')
  end.

(** [s.find(needle)]: the first position at which [needle] occurs in [s];
    [None] stands for [std::string::npos]. *)
Fixpoint find (needle s : string) {struct s} : option nat :=
  if String.prefix needle s then Some O
  else match s with
       | EmptyString => None
       | String _ s' => S <$> find needle s'
       end.

(** The string handed to [tim::delimit]: [use_roofline] is the value of
    KOKKOS_ROOFLINE, [env_components] the lookup of
    KOKKOS_TIMEMORY_COMPONENTS. *)
Definition selected_components
    (use_roofline : bool) (env_components : option string) : string :=
  let components := if use_roofline then "" else "wall_clock;peak_rss" in
  let env_result := transform_tolower (get_env env_components components) in
  if use_roofline && bool_decide (find "roofline" env_result = None)
  then TIMEMORY_JOIN ";" [env_result; "gpu_roofline_flops"; "cpu_roofline"]
  else env_result.

Definition is_upper (c : ascii) : bool :=
  (65 <=? nat_of_ascii c)%nat && (nat_of_ascii c <=? 90)%nat.

Fixpoint no_upper (s : string) : bool :=
  match s with
  | EmptyString => true
  | String c s' => negb (is_upper c) && no_upper s'
  end.

(** ** Further vocabulary *)

(** The callbacks of the region stack. *)
Definition is_region_callback (c : callback) : bool :=
  match c with
  | push_profile_region _ | pop_profile_region => true
  | _ => false
  end.

(** The handle a callback looks up, for the callbacks that take one. *)
Definition handle_of (c : callback) : option N :=
  match c with
  | end_parallel_for k | end_parallel_reduce k | end_parallel_scan k
  | destroy_profile_section k | start_profile_section k
  | stop_profile_section k => Some k
  | _ => None
  end.

(** Ending the kernels of a list of handles, pushing a list of regions and
    popping a number of them. *)
Definition ends (hs : list N) : list callback := end_parallel_for <$> hs.

Definition push_all (names : list string) : list callback :=
  push_profile_region <$> names.

Definition pop_times (n : nat) : list callback := replicate n pop_profile_region.

(** The stack elements [push_all] appends. *)
Definition pushed (names : list string) : list profile_entry_t :=
  (λ n, mk_profile_entry n true [call_start]) <$> names.

(** The events of [push_all] and of the matching pops. *)
Definition push_events (names : list string) : list event :=
  names ≫= λ n, [ev_construct n; ev_start n].

Definition pop_events (names : list string) : list event :=
  names ≫= λ n, [ev_stop n; ev_destruct n].

(** Counting events of one kind in a trace. *)
Definition is_construct (ev : event) : bool :=
  match ev with ev_construct _ => true | _ => false end.

Definition is_destruct (ev : event) : bool :=
  match ev with ev_destruct _ => true | _ => false end.

Fixpoint count_events (p : event → bool) (tr : list event) : nat :=
  match tr with
  | [] => O
  | ev :: tr' => (if p ev then 1 else 0) + count_events p tr'
  end.

(** Every bundle constructed is destroyed, registered or on the stack. *)
Definition conserved (st : tl_state) : Prop :=
  count_events is_construct (trace st)
  = (count_events is_destruct (trace st)
     + size (profile_map st) + length (profile_stack st))%nat.

(** A thread on which two kernels have begun: handles 0 and 1. *)
Definition example_two_kernels : tl_state :=
  begun (kernel_pname "dot" 0) example_begun.

(** A thread whose counter has reached [2^32] while handle 0 is still
    registered. *)
Definition example_wrapped32 : tl_state :=
  {| unique_id := uint32_max;
     profile_map := {[ 0%N := mk_profile_entry "kokkos/dev0/outer" true [call_start] ]};
     section_map := ∅;
     profile_stack := [];
     trace := [ev_construct "kokkos/dev0/outer"; ev_start "kokkos/dev0/outer"] |}.

(** * Properties *)

(** ** The registry operations, case by case *)

Ltac kp_unfold :=
  unfold start_profiler, stop_profiler, destroy_profiler, create_profiler,
    construct, profile_map_contains, profile_map_insert, profile_map_erase,
    profile_map_at_start, profile_map_at_stop, get_unique_id, discard,
    bind, ret, gets, modify in *.

Lemma start_profiler_spec k st :
  start_profiler k st =
    Ok (tt, match profile_map st !! k with
            | Some e => started k e st
            | None => st
            end).
Proof.
  kp_unfold. destruct (profile_map st !! k) as [e|] eqn:E; simpl.
  - rewrite E. reflexivity.
  - reflexivity.
Qed.

Lemma stop_profiler_spec k st :
  stop_profiler k st =
    Ok (tt, match profile_map st !! k with
            | Some e => stopped k e st
            | None => st
            end).
Proof.
  kp_unfold. destruct (profile_map st !! k) as [e|] eqn:E; simpl.
  - rewrite E. reflexivity.
  - reflexivity.
Qed.

Lemma destroy_profiler_spec k st :
  destroy_profiler k st =
    Ok (tt, match profile_map st !! k with
            | Some e => erased k e st
            | None => st
            end).
Proof.
  kp_unfold. destruct (profile_map st !! k) as [e|] eqn:E; simpl.
  - rewrite E. reflexivity.
  - reflexivity.
Qed.

Lemma create_profiler_spec pname k st :
  create_profiler pname k st =
    Ok (tt, let st1 := emit [ev_construct pname] st in
            match profile_map st !! k with
            | Some _ => emit [ev_destruct pname] st1
            | None => set_profile_map
                        (<[k := mk_profile_entry pname true []]> (profile_map st)) st1
            end).
Proof. kp_unfold. simpl. destruct (profile_map st !! k); reflexivity. Qed.

(** Stopping and then destroying, as every end-of-kernel callback does. *)
Lemma stop_then_destroy_spec k st :
  (stop_profiler k ;; destroy_profiler k) st =
    Ok (tt, match profile_map st !! k with
            | Some e => emit [ev_stop (key e); ev_destruct (key e)]
                          (set_profile_map (delete k (profile_map st)) st)
            | None => st
            end).
Proof.
  unfold bind at 1. rewrite stop_profiler_spec.
  destruct (profile_map st !! k) as [e|] eqn:E.
  - rewrite destroy_profiler_spec. unfold stopped. simpl.
    rewrite lookup_insert_eq. unfold erased, emit, set_profile_map. simpl.
    rewrite delete_insert_eq, <- app_assoc. reflexivity.
  - rewrite destroy_profiler_spec, E. reflexivity.
Qed.

(** ** The callbacks, case by case *)

Lemma enabled_pos sz : (0 < sz)%nat → enabled sz = true.
Proof. intros H. unfold enabled. apply bool_decide_eq_true_2. exact H. Qed.

Lemma enabled_zero : enabled 0 = false.
Proof. reflexivity. Qed.

Lemma begin_parallel_for_spec sz name devid kernid st :
  (0 < sz)%nat →
  kokkosp_begin_parallel_for sz name devid kernid st =
    Ok (mk_out_param (address kernid) (unique_id st),
        begun (kernel_pname name devid) st).
Proof.
  intros H. unfold kokkosp_begin_parallel_for. rewrite (enabled_pos _ H).
  unfold bind at 1. unfold get_unique_id at 1. cbn [pointee].
  unfold bind at 1. rewrite create_profiler_spec.
  unfold bind at 1. rewrite start_profiler_spec.
  unfold ret, begun. cbn zeta. cbn [profile_map set_unique_id].
  destruct (profile_map st !! unique_id st) as [e|] eqn:E;
    cbn [profile_map set_unique_id set_profile_map emit].
  - rewrite E. reflexivity.
  - rewrite lookup_insert_eq. reflexivity.
Qed.

Lemma begin_parallel_reduce_eq sz :
  kokkosp_begin_parallel_reduce sz = kokkosp_begin_parallel_for sz.
Proof. reflexivity. Qed.

Lemma begin_parallel_scan_eq sz :
  kokkosp_begin_parallel_scan sz = kokkosp_begin_parallel_for sz.
Proof. reflexivity. Qed.

Lemma end_parallel_reduce_eq sz :
  kokkosp_end_parallel_reduce sz = kokkosp_end_parallel_for sz.
Proof. reflexivity. Qed.

Lemma end_parallel_scan_eq sz :
  kokkosp_end_parallel_scan sz = kokkosp_end_parallel_for sz.
Proof. reflexivity. Qed.

Lemma end_parallel_for_spec sz k st :
  (0 < sz)%nat →
  kokkosp_end_parallel_for sz k st =
    Ok (tt, match profile_map st !! k with
            | Some e => emit [ev_stop (key e); ev_destruct (key e)]
                          (set_profile_map (delete k (profile_map st)) st)
            | None => st
            end).
Proof.
  intros H. unfold kokkosp_end_parallel_for. rewrite (enabled_pos _ H).
  apply stop_then_destroy_spec.
Qed.

Lemma create_profile_section_spec sz name secid st :
  (0 < sz)%nat →
  kokkosp_create_profile_section sz name secid st =
    Ok (mk_out_param (address secid) (unique_id st mod uint32_max),
        section_created (section_pname name (address secid)) st).
Proof.
  intros H. unfold kokkosp_create_profile_section. rewrite (enabled_pos _ H).
  unfold bind at 1. unfold get_unique_id at 1. cbn [pointee address].
  unfold bind at 1. rewrite create_profiler_spec.
  unfold ret, section_created, section_pname. reflexivity.
Qed.

Lemma push_profile_region_spec sz name st :
  (0 < sz)%nat →
  kokkosp_push_profile_region sz name st =
    Ok (tt, emit [ev_construct name; ev_start name]
              (set_profile_stack
                 (profile_stack st ++ [mk_profile_entry name true [call_start]]) st)).
Proof.
  intros H. unfold kokkosp_push_profile_region. rewrite (enabled_pos _ H).
  unfold construct, profile_stack_push_back, profile_stack_back_start,
    bind, ret, modify. simpl.
  rewrite last_snoc, removelast_last.
  unfold emit, set_profile_stack, entry_start. simpl.
  rewrite <- app_assoc. reflexivity.
Qed.

Lemma pop_profile_region_empty sz st :
  profile_stack st = [] → kokkosp_pop_profile_region sz st = Ok (tt, st).
Proof.
  intros E. unfold kokkosp_pop_profile_region, profile_stack_empty, bind, gets, ret.
  destruct (enabled sz); [|reflexivity].
  rewrite E. reflexivity.
Qed.

Lemma pop_profile_region_snoc sz st s e :
  (0 < sz)%nat → profile_stack st = s ++ [e] →
  kokkosp_pop_profile_region sz st =
    Ok (tt, emit [ev_stop (key e); ev_destruct (key e)] (set_profile_stack s st)).
Proof.
  intros H E. unfold kokkosp_pop_profile_region. rewrite (enabled_pos _ H).
  unfold profile_stack_empty, profile_stack_back_stop, profile_stack_pop_back,
    bind, gets, ret.
  rewrite bool_decide_eq_false_2 by (rewrite E; destruct s; discriminate).
  rewrite E, last_snoc, removelast_last. simpl.
  rewrite last_snoc, removelast_last.
  unfold emit, set_profile_stack. simpl. rewrite <- app_assoc. reflexivity.
Qed.

(** ** Every callback completes *)

(** With no component compiled in, a guarded callback does nothing. *)
Lemma dispatch_disabled c st : dispatch 0 c st = Ok (tt, st).
Proof. destruct c; reflexivity. Qed.

Lemma run_disabled cs st : run 0 cs st = Ok (tt, st).
Proof.
  induction cs as [|c cs IH]; [reflexivity|].
  simpl. unfold bind. rewrite dispatch_disabled. exact IH.
Qed.

Lemma effect_refl st : effect st st.
Proof. split; [reflexivity | left; reflexivity | intros k Hk; left; exact Hk]. Qed.

Lemma effect_started k e st : profile_map st !! k = Some e → effect st (started k e st).
Proof.
  intros E. split; [reflexivity | left; reflexivity |].
  intros j Hj. left. simpl in Hj. apply lookup_insert_is_Some in Hj.
  destruct Hj as [<-|[_ Hj]]; [rewrite E; eauto | exact Hj].
Qed.

Lemma effect_erased k e st : effect st (erased k e st).
Proof.
  split; [reflexivity | left; reflexivity |].
  intros j Hj. left. simpl in Hj. apply lookup_delete_is_Some in Hj. tauto.
Qed.

Lemma effect_stop_destroy k e st :
  effect st (emit [ev_stop (key e); ev_destruct (key e)]
               (set_profile_map (delete k (profile_map st)) st)).
Proof.
  split; [reflexivity | left; reflexivity |].
  intros j Hj. left. simpl in Hj. apply lookup_delete_is_Some in Hj. tauto.
Qed.

Lemma effect_begun pname st : effect st (begun pname st).
Proof.
  unfold begun. cbn zeta.
  destruct (profile_map st !! unique_id st) as [e|] eqn:E.
  - split; [reflexivity | right; reflexivity |].
    intros j Hj. simpl in Hj. apply lookup_insert_is_Some in Hj.
    destruct Hj as [<-|[_ Hj]]; left; [rewrite E; eauto | exact Hj].
  - split; [reflexivity | right; reflexivity |].
    intros j Hj. simpl in Hj. rewrite insert_insert_eq in Hj.
    apply lookup_insert_is_Some in Hj.
    destruct Hj as [<-|[_ Hj]]; [right; split; [lia | reflexivity] | left; exact Hj].
Qed.

Lemma effect_section_created pname st : effect st (section_created pname st).
Proof.
  unfold section_created. cbn zeta.
  destruct (profile_map st !! (unique_id st mod uint32_max)) as [e|] eqn:E.
  - split; [reflexivity | right; reflexivity | intros j Hj; left; exact Hj].
  - split; [reflexivity | right; reflexivity |].
    intros j Hj. simpl in Hj. apply lookup_insert_is_Some in Hj.
    destruct Hj as [<-|[_ Hj]]; [right | left; exact Hj].
    split; [|reflexivity]. apply N.Div0.mod_le.
Qed.

Lemma effect_stack evs s st : effect st (emit evs (set_profile_stack s st)).
Proof. split; [reflexivity | left; reflexivity | intros k Hk; left; exact Hk]. Qed.

Lemma dispatch_effect sz c st :
  ∃ st', dispatch sz c st = Ok (tt, st') ∧ effect st st'.
Proof.
  destruct sz as [|n].
  { exists st. split; [apply dispatch_disabled | apply effect_refl]. }
  assert (H : (0 < S n)%nat) by lia.
  destruct c as [name d k|k|name d k|k|name d k|k|name| |name s|s|s|s];
    cbn [dispatch]; unfold discard, bind.
  - rewrite begin_parallel_for_spec by exact H. eexists. split; [reflexivity|].
    apply effect_begun.
  - rewrite end_parallel_for_spec by exact H. eexists. split; [reflexivity|].
    destruct (profile_map st !! k); [apply effect_stop_destroy | apply effect_refl].
  - change (kokkosp_begin_parallel_reduce (S n)) with (kokkosp_begin_parallel_for (S n)).
    rewrite begin_parallel_for_spec by exact H.
    eexists. split; [reflexivity|]. apply effect_begun.
  - change (kokkosp_end_parallel_reduce (S n)) with (kokkosp_end_parallel_for (S n)).
    rewrite end_parallel_for_spec by exact H.
    eexists. split; [reflexivity|].
    destruct (profile_map st !! k); [apply effect_stop_destroy | apply effect_refl].
  - change (kokkosp_begin_parallel_scan (S n)) with (kokkosp_begin_parallel_for (S n)).
    rewrite begin_parallel_for_spec by exact H.
    eexists. split; [reflexivity|]. apply effect_begun.
  - change (kokkosp_end_parallel_scan (S n)) with (kokkosp_end_parallel_for (S n)).
    rewrite end_parallel_for_spec by exact H.
    eexists. split; [reflexivity|].
    destruct (profile_map st !! k); [apply effect_stop_destroy | apply effect_refl].
  - rewrite push_profile_region_spec by exact H. eexists. split; [reflexivity|].
    apply effect_stack.
  - destruct (profile_stack st) as [|e s _] eqn:E using rev_ind.
    + rewrite pop_profile_region_empty by exact E. eexists.
      split; [reflexivity | apply effect_refl].
    + rewrite (pop_profile_region_snoc _ _ s e) by assumption. eexists.
      split; [reflexivity | apply effect_stack].
  - rewrite create_profile_section_spec by exact H. eexists. split; [reflexivity|].
    apply effect_section_created.
  - unfold kokkosp_destroy_profile_section. rewrite (enabled_pos _ H).
    rewrite destroy_profiler_spec. eexists. split; [reflexivity|].
    destruct (profile_map st !! s); [apply effect_erased | apply effect_refl].
  - unfold kokkosp_start_profile_section. rewrite (enabled_pos _ H).
    rewrite start_profiler_spec. eexists. split; [reflexivity|].
    destruct (profile_map st !! s) eqn:E; [apply effect_started, E | apply effect_refl].
  - unfold kokkosp_stop_profile_section. rewrite (enabled_pos _ H).
    rewrite start_profiler_spec. eexists. split; [reflexivity|].
    destruct (profile_map st !! s) eqn:E; [apply effect_started, E | apply effect_refl].
Qed.

Lemma run_total sz cs st :
  ∃ st', run sz cs st = Ok (tt, st') ∧ section_map st' = section_map st.
Proof.
  revert st. induction cs as [|c cs IH]; intros st.
  - exists st. split; reflexivity.
  - destruct (dispatch_effect sz c st) as (st1 & E1 & [Hs _ _]).
    destruct (IH st1) as (st2 & E2 & Hs2).
    exists st2. simpl. unfold bind. rewrite E1. split; [exact E2 | congruence].
Qed.

(** ** Handles in the map are older than the counter *)

Lemma handles_below_counter_init : handles_below_counter tl_init.
Proof. intros k [e He]. simpl in He. rewrite lookup_empty in He. discriminate. Qed.

Lemma effect_preserves st st' :
  effect st st' → handles_below_counter st →
  (unique_id st + 1 < uint64_max)%N →
  handles_below_counter st' ∧ (unique_id st' ≤ unique_id st + 1)%N.
Proof.
  intros [_ Hc Hh] Hinv Hlt.
  assert (Hmod : (unique_id st + 1) mod uint64_max = unique_id st + 1)
    by (apply N.mod_small; exact Hlt).
  unfold counter_step, handles_step in *. rewrite Hmod in Hc. split.
  - intros k Hk. destruct (Hh k Hk) as [Hold|[Hle Hnew]].
    + specialize (Hinv k Hold). destruct Hc as [-> | ->]; lia.
    + rewrite Hmod in Hnew. lia.
  - destruct Hc as [-> | ->]; lia.
Qed.

Lemma run_preserves sz cs st n :
  handles_below_counter st → (unique_id st ≤ n)%N →
  (n + N.of_nat (length cs) < uint64_max)%N →
  ∃ st', run sz cs st = Ok (tt, st')
         ∧ handles_below_counter st'
         ∧ (unique_id st' ≤ n + N.of_nat (length cs))%N.
Proof.
  revert st n. induction cs as [|c cs IH]; intros st n Hinv Hle Hlt.
  - exists st. split; [reflexivity|]. split; [exact Hinv|]. simpl. lia.
  - cbn [length] in Hlt. rewrite Nat2N.inj_succ in Hlt.
    destruct (dispatch_effect sz c st) as (st1 & E1 & Heff).
    destruct (effect_preserves _ _ Heff Hinv) as [Hinv1 Hle1]; [lia|].
    destruct (IH st1 (n + 1)%N Hinv1) as (st2 & E2 & Hinv2 & Hle2); [lia | lia |].
    exists st2. simpl run. unfold bind. rewrite E1.
    split; [exact E2|]. split; [exact Hinv2|].
    cbn [length]. rewrite Nat2N.inj_succ. lia.
Qed.

(** On a thread that has seen fewer than [2^64] callbacks the counter has not
    wrapped, so the next handle is not in the map. *)
Lemma run_from_init sz cs :
  (N.of_nat (length cs) < uint64_max)%N →
  ∃ st, run sz cs tl_init = Ok (tt, st)
        ∧ handles_below_counter st
        ∧ (unique_id st ≤ N.of_nat (length cs))%N
        ∧ section_map st = ∅.
Proof.
  intros Hlt.
  destruct (run_preserves sz cs tl_init 0 handles_below_counter_init) as (st & E & Hinv & Hle);
    [simpl; lia | lia |].
  exists st. split; [exact E|]. split; [exact Hinv|]. split; [lia|].
  destruct (run_total sz cs tl_init) as (st' & E' & Hs).
  rewrite E in E'. injection E' as <-. exact Hs.
Qed.

Lemma next_handle_free st :
  handles_below_counter st → profile_map st !! unique_id st = None.
Proof.
  intros Hinv. destruct (profile_map st !! unique_id st) as [e|] eqn:E; [|reflexivity].
  specialize (Hinv (unique_id st)). rewrite E in Hinv.
  assert (unique_id st < unique_id st)%N by (apply Hinv; eauto). lia.
Qed.

(** * The claims *)

(** ** Sections: start and stop *)

(** What the stop-section callback does to a registered section: it is the
    bundle's [start()] that is invoked. *)
Lemma stop_profile_section_registered sz secid e st :
  (0 < sz)%nat → profile_map st !! secid = Some e →
  kokkosp_stop_profile_section sz secid st = Ok (tt, started secid e st).
Proof.
  intros H E. unfold kokkosp_stop_profile_section. rewrite (enabled_pos _ H).
  rewrite start_profiler_spec, E. reflexivity.
Qed.

(** C1, evaluated on the code.  The claim is that stopping a section invokes
    the stop of its bundle and never its start.  On a fresh thread, create a
    section (it gets id 0) and stop it: the bundle under 0 has received one
    call, a start, and the trace has grown by that start and by no stop. *)
Theorem stop_section_issues_start :
  ∃ st1 st2 e,
    kokkosp_create_profile_section 1 "phase1" example_out tl_init
      = Ok (mk_out_param (address example_out) 0, st1)
    ∧ profile_map st1 !! 0%N = Some e
    ∧ calls e = []
    ∧ kokkosp_stop_profile_section 1 0 st1 = Ok (tt, st2)
    ∧ calls <$> profile_map st2 !! 0%N = Some [call_start]
    ∧ trace st2 = trace st1 ++ [ev_start (key e)]
    ∧ ev_stop (key e) ∉ trace st2.
Proof.
  eexists. eexists. eexists.
  split. { rewrite create_profile_section_spec by lia. reflexivity. }
  split. { unfold section_created. simpl. rewrite lookup_empty. simpl.
           apply lookup_insert_eq. }
  split. { reflexivity. }
  split. { eapply stop_profile_section_registered; [lia|].
           unfold section_created. simpl. rewrite lookup_empty. simpl.
           apply lookup_insert_eq. }
  split. { unfold started. simpl. rewrite lookup_insert_eq. reflexivity. }
  split. { reflexivity. }
  unfold started, section_created. simpl. rewrite lookup_empty. simpl.
  intros Hin. apply list_elem_of_In in Hin. simpl in Hin.
  destruct Hin as [Hin|[Hin|[]]]; discriminate.
Qed.

(** ** The zero-metric configuration *)

(** C4.  When [profile_entry_t::size()] is 0, every guarded callback returns
    with the thread's state as it found it; after any sequence of them on a
    fresh thread both maps and the stack are empty and no bundle has been
    constructed (the trace is empty). *)
Theorem zero_metrics_no_sessions sz cs :
  sz = 0%nat →
  (∀ c st, dispatch sz c st = Ok (tt, st))
  ∧ ∃ st, run sz cs tl_init = Ok (tt, st)
          ∧ profile_map st = ∅
          ∧ section_map st = ∅
          ∧ profile_stack st = []
          ∧ trace st = [].
Proof.
  intros ->. split; [apply dispatch_disabled|].
  exists tl_init. split; [apply run_disabled|]. repeat split.
Qed.

Lemma zero_metrics_no_sessions_witness :
  (∀ c st, dispatch 0 c st = Ok (tt, st))
  ∧ ∃ st, run 0 [begin_parallel_for "saxpy" 2 example_out;
                  push_profile_region "solve";
                  create_profile_section "phase1" example_out;
                  end_parallel_for 77] tl_init = Ok (tt, st)
          ∧ profile_map st = ∅
          ∧ section_map st = ∅
          ∧ profile_stack st = []
          ∧ trace st = [].
Proof. apply (zero_metrics_no_sessions 0). reflexivity. Defined.

(** C9.  In the same configuration the three kernel-begin callbacks return
    without assigning through [kernid]: the out-parameter comes back with the
    value it had, and the state is untouched. *)
Theorem zero_metrics_keeps_kernid name devid kernid st :
  kokkosp_begin_parallel_for 0 name devid kernid st = Ok (kernid, st)
  ∧ kokkosp_begin_parallel_reduce 0 name devid kernid st = Ok (kernid, st)
  ∧ kokkosp_begin_parallel_scan 0 name devid kernid st = Ok (kernid, st).
Proof. repeat split. Qed.

(** ** Absent handles *)

(** C5.  For a handle that is not in the profile map, [start_profiler],
    [stop_profiler] and [destroy_profiler] complete and return the state they
    were given; so do the callbacks built from them (the three kernel ends and
    the section destroy, start and stop), whatever the configuration. *)
Theorem absent_handle_is_noop h st :
  profile_map st !! h = None →
  start_profiler h st = Ok (tt, st)
  ∧ stop_profiler h st = Ok (tt, st)
  ∧ destroy_profiler h st = Ok (tt, st)
  ∧ ∀ sz,
      kokkosp_end_parallel_for sz h st = Ok (tt, st)
      ∧ kokkosp_end_parallel_reduce sz h st = Ok (tt, st)
      ∧ kokkosp_end_parallel_scan sz h st = Ok (tt, st)
      ∧ kokkosp_destroy_profile_section sz h st = Ok (tt, st)
      ∧ kokkosp_start_profile_section sz h st = Ok (tt, st)
      ∧ kokkosp_stop_profile_section sz h st = Ok (tt, st).
Proof.
  intros E.
  assert (Hstart : start_profiler h st = Ok (tt, st))
    by (rewrite start_profiler_spec, E; reflexivity).
  assert (Hstop : stop_profiler h st = Ok (tt, st))
    by (rewrite stop_profiler_spec, E; reflexivity).
  assert (Hdestroy : destroy_profiler h st = Ok (tt, st))
    by (rewrite destroy_profiler_spec, E; reflexivity).
  assert (Hend : (stop_profiler h ;; destroy_profiler h) st = Ok (tt, st))
    by (rewrite stop_then_destroy_spec, E; reflexivity).
  repeat split; try assumption.
  all: unfold kokkosp_end_parallel_for, kokkosp_end_parallel_reduce,
         kokkosp_end_parallel_scan, kokkosp_destroy_profile_section,
         kokkosp_start_profile_section, kokkosp_stop_profile_section;
       destruct (enabled sz); try reflexivity; assumption.
Qed.

Lemma absent_handle_is_noop_witness :
  start_profiler 5 example_begun = Ok (tt, example_begun)
  ∧ stop_profiler 5 example_begun = Ok (tt, example_begun)
  ∧ destroy_profiler 5 example_begun = Ok (tt, example_begun)
  ∧ ∀ sz,
      kokkosp_end_parallel_for sz 5 example_begun = Ok (tt, example_begun)
      ∧ kokkosp_end_parallel_reduce sz 5 example_begun = Ok (tt, example_begun)
      ∧ kokkosp_end_parallel_scan sz 5 example_begun = Ok (tt, example_begun)
      ∧ kokkosp_destroy_profile_section sz 5 example_begun = Ok (tt, example_begun)
      ∧ kokkosp_start_profile_section sz 5 example_begun = Ok (tt, example_begun)
      ∧ kokkosp_stop_profile_section sz 5 example_begun = Ok (tt, example_begun).
Proof. apply (absent_handle_is_noop 5 example_begun). vm_compute. reflexivity. Defined.

(** Ending a kernel twice, or ending one that was never begun, completes:
    the second end finds nothing to do. *)
Lemma double_end_is_noop sz h st :
  ∃ st1, kokkosp_end_parallel_for sz h st = Ok (tt, st1)
         ∧ kokkosp_end_parallel_for sz h st1 = Ok (tt, st1).
Proof.
  destruct sz as [|n].
  { exists st. split; reflexivity. }
  assert (Hnone : ∀ st1, profile_map st1 !! h = None →
                         kokkosp_end_parallel_for (S n) h st1 = Ok (tt, st1)).
  { intros st1 E. rewrite end_parallel_for_spec by lia. rewrite E. reflexivity. }
  destruct (profile_map st !! h) as [e|] eqn:E.
  - eexists. split; [rewrite end_parallel_for_spec by lia; rewrite E; reflexivity|].
    apply Hnone. simpl. apply lookup_delete_eq.
  - exists st. split; apply Hnone, E.
Qed.

(** ** Kernel regions *)

Lemma kernel_pname_eq name devid :
  kernel_pname name devid = "kokkos/dev" +:+ show_unsigned devid +:+ "/" +:+ name.
Proof.
  unfold kernel_pname. cbn [TIMEMORY_JOIN].
  generalize (show_unsigned devid). intros d. simpl. reflexivity.
Qed.

(** What [operator<<] prints for an unsigned integer is its decimal
    numeral. *)
Lemma digit_value_pretty d :
  (d < 10)%N → digit_value (pretty_N_char d) = Some d.
Proof.
  intros Hd.
  assert (Hcases : d = 0%N ∨ d = 1%N ∨ d = 2%N ∨ d = 3%N ∨ d = 4%N ∨ d = 5%N
                   ∨ d = 6%N ∨ d = 7%N ∨ d = 8%N ∨ d = 9%N) by lia.
  destruct Hcases as [->|[->|[->|[->|[->|[->|[->|[->|[->| ->]]]]]]]]]; reflexivity.
Qed.

Lemma decimal_value_pretty_go x :
  ∀ s, ∃ k, ∀ acc,
    decimal_value_from acc (pretty_N_go x s)
    = decimal_value_from (acc * 10 ^ k + x) s.
Proof.
  induction (N.lt_wf_0 x) as [x _ IH]. intros s.
  destruct (decide (x = 0)%N) as [->|Hx].
  - exists 0%N. intros acc. rewrite pretty_N_go_0. f_equal. rewrite N.pow_0_r. lia.
  - assert (Hlt : (x `div` 10 < x)%N) by (apply N.div_lt; lia).
    destruct (IH _ Hlt (String (pretty_N_char (x `mod` 10)) s)) as [k Hk].
    exists (N.succ k). intros acc.
    rewrite pretty_N_go_step by lia. rewrite Hk. cbn [decimal_value_from].
    rewrite digit_value_pretty by (apply N.mod_lt; lia).
    f_equal. rewrite N.pow_succ_r'.
    pose proof (N.div_mod' x 10) as Hdm.
    generalize dependent (10 ^ k)%N. intros p _.
    rewrite N.mul_add_distr_l, N.mul_assoc, (N.mul_comm 10 acc), <- N.mul_assoc.
    rewrite <- N.add_assoc. f_equal. symmetry. exact Hdm.
Qed.

Lemma pretty_go_head x :
  ∀ s, (0 < x)%N →
       ∃ c rest, pretty_N_go x s = String c rest ∧ c ≠ "0"%char.
Proof.
  induction (N.lt_wf_0 x) as [x _ IH]. intros s Hx.
  rewrite pretty_N_go_step by exact Hx.
  destruct (decide (x `div` 10 = 0)%N) as [Hq|Hq].
  - rewrite Hq, pretty_N_go_0. eexists. eexists. split; [reflexivity|].
    assert (Hsmall : (x < 10)%N) by (apply N.div_small_iff in Hq; lia).
    rewrite N.mod_small by exact Hsmall.
    assert (Hcases : x = 1%N ∨ x = 2%N ∨ x = 3%N ∨ x = 4%N ∨ x = 5%N
                     ∨ x = 6%N ∨ x = 7%N ∨ x = 8%N ∨ x = 9%N) by lia.
    destruct Hcases as [->|[->|[->|[->|[->|[->|[->|[->| ->]]]]]]]]; discriminate.
  - apply IH; [apply N.div_lt; lia | apply N.neq_0_lt_0, Hq].
Qed.

Lemma show_unsigned_decimal n : is_decimal_of (show_unsigned n) n.
Proof.
  unfold show_unsigned, pretty, pretty_N. case_decide as Hn.
  - subst n. split; reflexivity.
  - destruct (pretty_go_head n "") as (c & rest & Hs & Hc); [lia|].
    destruct (decimal_value_pretty_go n "") as [k Hk].
    specialize (Hk 0%N). rewrite Hs in Hk. rewrite Hs. split.
    + unfold decimal_value. rewrite Hk. simpl. reflexivity.
    + unfold leading_zero. destruct rest; [reflexivity|].
      apply Ascii.eqb_neq, Hc.
Qed.

(** C8, as it is stated, fails on the code in one configuration.  With no
    component compiled in, a kernel begin registers nothing: after
    [begin_for("saxpy", 2)] on a fresh thread no handle is registered, and
    the out-parameter still holds what the caller had put there. *)
Lemma kernel_begin_disabled_registers_nothing :
  ∃ st', kokkosp_begin_parallel_for 0 "saxpy" 2 example_out tl_init
           = Ok (example_out, st')
         ∧ (∀ h, profile_map st' !! h = None)
         ∧ profile_map st' !! pointee example_out = None.
Proof.
  exists tl_init. split; [reflexivity|].
  split; [intros h; apply lookup_empty | apply lookup_empty].
Qed.

(** C8, amended.  With at least one component compiled in, on a thread that
    has run any sequence of fewer than [2^64] callbacks, a kernel begin (for,
    reduce or scan) for [name] on device [devid] returns a handle that was
    free and leaves under it a started bundle named
    "kokkos/dev<digits>/<name>", where <digits> is the decimal numeral of
    [devid]. *)
Theorem kernel_begin_registers_qualified_name sz cs name devid kernid :
  (0 < sz)%nat → (N.of_nat (length cs) < uint64_max)%N →
  ∃ st h st' digits,
    run sz cs tl_init = Ok (tt, st)
    ∧ kokkosp_begin_parallel_for sz name devid kernid st
        = Ok (mk_out_param (address kernid) h, st')
    ∧ kokkosp_begin_parallel_reduce sz name devid kernid st
        = Ok (mk_out_param (address kernid) h, st')
    ∧ kokkosp_begin_parallel_scan sz name devid kernid st
        = Ok (mk_out_param (address kernid) h, st')
    ∧ profile_map st !! h = None
    ∧ profile_map st' !! h
        = Some {| key := "kokkos/dev" +:+ digits +:+ "/" +:+ name;
                  store := true;
                  calls := [call_start] |}
    ∧ is_decimal_of digits devid.
Proof.
  intros Hsz Hlen.
  destruct (run_from_init sz cs Hlen) as (st & Hrun & Hinv & _ & _).
  pose proof (next_handle_free st Hinv) as Hfree.
  exists st, (unique_id st), (begun (kernel_pname name devid) st),
         (show_unsigned devid).
  split; [exact Hrun|].
  split; [exact (begin_parallel_for_spec sz name devid kernid st Hsz)|].
  split; [exact (begin_parallel_for_spec sz name devid kernid st Hsz)|].
  split; [exact (begin_parallel_for_spec sz name devid kernid st Hsz)|].
  split; [exact Hfree|].
  split; [|apply show_unsigned_decimal].
  unfold begun. cbn zeta. rewrite Hfree. unfold started. simpl.
  rewrite lookup_insert_eq, kernel_pname_eq. reflexivity.
Qed.

Lemma kernel_begin_registers_qualified_name_witness :
  ∃ st h st' digits,
    run 1 [push_profile_region "solve"; create_profile_section "phase1" example_out]
        tl_init = Ok (tt, st)
    ∧ kokkosp_begin_parallel_for 1 "saxpy" 12 example_out st
        = Ok (mk_out_param (address example_out) h, st')
    ∧ kokkosp_begin_parallel_reduce 1 "saxpy" 12 example_out st
        = Ok (mk_out_param (address example_out) h, st')
    ∧ kokkosp_begin_parallel_scan 1 "saxpy" 12 example_out st
        = Ok (mk_out_param (address example_out) h, st')
    ∧ profile_map st !! h = None
    ∧ profile_map st' !! h
        = Some {| key := "kokkos/dev" +:+ digits +:+ "/" +:+ "saxpy";
                  store := true;
                  calls := [call_start] |}
    ∧ is_decimal_of digits 12
    ∧ h = 1%N
    ∧ key <$> profile_map st' !! 1%N = Some "kokkos/dev12/saxpy".
Proof.
  destruct (kernel_begin_registers_qualified_name 1
              [push_profile_region "solve"; create_profile_section "phase1" example_out]
              "saxpy" 12 example_out)
    as (st & h & st' & digits & Hrun & Hfor & Hred & Hscan & Hfree & Hkey & Hdec).
  - lia.
  - vm_compute. reflexivity.
  - exists st, h, st', digits.
    split; [exact Hrun|]. split; [exact Hfor|]. split; [exact Hred|].
    split; [exact Hscan|]. split; [exact Hfree|]. split; [exact Hkey|].
    split; [exact Hdec|].
    vm_compute in Hrun. injection Hrun as Hst. subst st.
    vm_compute in Hfor. injection Hfor as Hh Hst'. subst h st'.
    split; [reflexivity|]. vm_compute. reflexivity.
Defined.

(** The example of the specification. *)
Example begin_for_saxpy :
  ∃ st, kokkosp_begin_parallel_for 1 "saxpy" 2 example_out tl_init
          = Ok (mk_out_param (address example_out) 0, st)
        ∧ key <$> profile_map st !! 0%N = Some "kokkos/dev2/saxpy".
Proof.
  eexists. split; [rewrite begin_parallel_for_spec by lia; reflexivity|].
  vm_compute. reflexivity.
Qed.

(** C6.  A kernel begin returns a handle [h] under which a bundle is
    registered.  In any later state in which [h] is still registered, the end
    callback (for, reduce or scan) is [stop_profiler h] followed by
    [destroy_profiler h]: the bundle under [h] is stopped first, then [h] is
    erased from the map; no start or stop by the caller is needed. *)
Theorem end_region_stops_then_destroys sz name devid kernid st0 :
  (0 < sz)%nat →
  ∃ h st1 e,
    kokkosp_begin_parallel_for sz name devid kernid st0
      = Ok (mk_out_param (address kernid) h, st1)
    ∧ kokkosp_begin_parallel_reduce sz name devid kernid st0
        = Ok (mk_out_param (address kernid) h, st1)
    ∧ kokkosp_begin_parallel_scan sz name devid kernid st0
        = Ok (mk_out_param (address kernid) h, st1)
    ∧ profile_map st1 !! h = Some e
    ∧ ∀ st e', profile_map st !! h = Some e' →
        ∃ st_mid st_end,
          stop_profiler h st = Ok (tt, st_mid)
          ∧ profile_map st_mid !! h = Some (entry_stop e')
          ∧ trace st_mid = trace st ++ [ev_stop (key e')]
          ∧ destroy_profiler h st_mid = Ok (tt, st_end)
          ∧ profile_map st_end = delete h (profile_map st)
          ∧ trace st_end = trace st_mid ++ [ev_destruct (key e')]
          ∧ kokkosp_end_parallel_for sz h st = Ok (tt, st_end)
          ∧ kokkosp_end_parallel_reduce sz h st = Ok (tt, st_end)
          ∧ kokkosp_end_parallel_scan sz h st = Ok (tt, st_end).
Proof.
  intros Hsz.
  assert (Hbegun : is_Some (profile_map (begun (kernel_pname name devid) st0)
                              !! unique_id st0)).
  { unfold begun. cbn zeta.
    destruct (profile_map st0 !! unique_id st0); simpl;
      rewrite lookup_insert_eq; eauto. }
  destruct Hbegun as [e He].
  exists (unique_id st0), (begun (kernel_pname name devid) st0), e.
  split; [exact (begin_parallel_for_spec sz name devid kernid st0 Hsz)|].
  split; [exact (begin_parallel_for_spec sz name devid kernid st0 Hsz)|].
  split; [exact (begin_parallel_for_spec sz name devid kernid st0 Hsz)|].
  split; [exact He|].
  intros st e' E.
  exists (stopped (unique_id st0) e' st),
         (erased (unique_id st0) (entry_stop e') (stopped (unique_id st0) e' st)).
  change (kokkosp_end_parallel_reduce sz) with (kokkosp_end_parallel_for sz).
  change (kokkosp_end_parallel_scan sz) with (kokkosp_end_parallel_for sz).
  rewrite end_parallel_for_spec by exact Hsz.
  rewrite stop_profiler_spec, destroy_profiler_spec, E.
  assert (Hmid : profile_map (stopped (unique_id st0) e' st) !! unique_id st0
                 = Some (entry_stop e')) by (simpl; apply lookup_insert_eq).
  rewrite Hmid.
  assert (Hend : emit [ev_stop (key e'); ev_destruct (key e')]
                   (set_profile_map (delete (unique_id st0) (profile_map st)) st)
                 = erased (unique_id st0) (entry_stop e') (stopped (unique_id st0) e' st)).
  { unfold erased, stopped, emit, set_profile_map. simpl.
    rewrite delete_insert_eq, <- app_assoc. reflexivity. }
  rewrite Hend.
  repeat split; try reflexivity.
  simpl. apply delete_insert_eq.
Qed.

Lemma end_region_stops_then_destroys_witness :
  ∃ h st1 e,
    kokkosp_begin_parallel_for 1 "init_kernel" 0 example_out tl_init
      = Ok (mk_out_param (address example_out) h, st1)
    ∧ kokkosp_begin_parallel_reduce 1 "init_kernel" 0 example_out tl_init
        = Ok (mk_out_param (address example_out) h, st1)
    ∧ kokkosp_begin_parallel_scan 1 "init_kernel" 0 example_out tl_init
        = Ok (mk_out_param (address example_out) h, st1)
    ∧ profile_map st1 !! h = Some e
    ∧ ∀ st e', profile_map st !! h = Some e' →
        ∃ st_mid st_end,
          stop_profiler h st = Ok (tt, st_mid)
          ∧ profile_map st_mid !! h = Some (entry_stop e')
          ∧ trace st_mid = trace st ++ [ev_stop (key e')]
          ∧ destroy_profiler h st_mid = Ok (tt, st_end)
          ∧ profile_map st_end = delete h (profile_map st)
          ∧ trace st_end = trace st_mid ++ [ev_destruct (key e')]
          ∧ kokkosp_end_parallel_for 1 h st = Ok (tt, st_end)
          ∧ kokkosp_end_parallel_reduce 1 h st = Ok (tt, st_end)
          ∧ kokkosp_end_parallel_scan 1 h st = Ok (tt, st_end).
Proof.
  apply (end_region_stops_then_destroys 1 "init_kernel" 0 example_out tl_init). lia.
Defined.

(** The scenario of the specification: begin, no start or stop, end. *)
Example begin_then_end :
  ∃ st, run 1 [begin_parallel_for "init_kernel" 0 example_out; end_parallel_for 0]
            tl_init = Ok (tt, st)
        ∧ profile_map st !! 0%N = None
        ∧ trace st = [ev_construct "kokkos/dev0/init_kernel";
                      ev_start "kokkos/dev0/init_kernel";
                      ev_stop "kokkos/dev0/init_kernel";
                      ev_destruct "kokkos/dev0/init_kernel"].
Proof. eexists. split; [vm_compute; reflexivity|]. split; vm_compute; reflexivity. Qed.

(** ** Finalization *)

Lemma destruct_events_stopped m :
  destruct_events (entry_stop <$> m) = destruct_events m.
Proof.
  unfold destruct_events. rewrite map_to_list_fmap, <- list_fmap_compose.
  apply list_fmap_ext. intros i [k e] _. reflexivity.
Qed.

Lemma stop_events_enumerate (o : map_order) m :
  (λ kv, ev_stop (key kv.2)) <$> enumerate o m ≡ₚ stop_events m.
Proof. unfold stop_events. apply fmap_Permutation, enumerate_perm. Qed.

Lemma destruct_events_enumerate (o : map_order) m :
  (λ kv, ev_destruct (key kv.2)) <$> enumerate o (entry_stop <$> m)
  ≡ₚ destruct_events m.
Proof.
  rewrite <- destruct_events_stopped. unfold destruct_events.
  apply fmap_Permutation, enumerate_perm.
Qed.

(** C10.  [kokkosp_finalize_library] stops every bundle of the profile map,
    empties that map and finalizes the library, whatever the order in which
    the map is traversed and cleared.  The stack comes back as it was,
    element for element, call histories included: a region that was pushed
    and not popped is neither stopped nor removed.  The section map and the
    counter are untouched as well.  The trace grows by the stops of the
    map's bundles, then their destructions, then the finalization of the
    library; the stops and the destructions are those of the map's elements,
    in some order. *)
Theorem finalize_leaves_stack (sweep cleared : map_order) st :
  ∃ st' stops destructs,
    kokkosp_finalize_library sweep cleared st = Ok (tt, st')
    ∧ profile_map st' = ∅
    ∧ profile_stack st' = profile_stack st
    ∧ section_map st' = section_map st
    ∧ unique_id st' = unique_id st
    ∧ trace st' = trace st ++ stops ++ destructs ++ [ev_timemory_finalize]
    ∧ stops ≡ₚ stop_events (profile_map st)
    ∧ destructs ≡ₚ destruct_events (profile_map st).
Proof.
  eexists.
  exists ((λ kv, ev_stop (key kv.2)) <$> enumerate sweep (profile_map st)),
         ((λ kv, ev_destruct (key kv.2))
            <$> enumerate cleared (entry_stop <$> profile_map st)).
  split; [reflexivity|]. simpl.
  split; [reflexivity|]. split; [reflexivity|].
  split; [reflexivity|]. split; [reflexivity|].
  split; [rewrite <- !app_assoc; reflexivity|].
  split; [apply stop_events_enumerate | apply destruct_events_enumerate].
Qed.

(** A region pushed and a kernel begun, then finalization: the kernel's
    bundle is stopped and gone, the region's bundle is still on the stack and
    has only been started. *)
Example finalize_after_push :
  ∃ st st',
    run 1 [push_profile_region "solve"; begin_parallel_for "saxpy" 2 example_out]
        tl_init = Ok (tt, st)
    ∧ kokkosp_finalize_library gmap_order gmap_order_reversed st = Ok (tt, st')
    ∧ profile_map st' !! 0%N = None
    ∧ profile_stack st' = [mk_profile_entry "solve" true [call_start]]
    ∧ trace st' = trace st ++ [ev_stop "kokkos/dev2/saxpy";
                               ev_destruct "kokkos/dev2/saxpy";
                               ev_timemory_finalize].
Proof.
  eexists. eexists. split; [vm_compute; reflexivity|].
  split; [vm_compute; reflexivity|].
  repeat split; vm_compute; reflexivity.
Qed.

(** Two kernels begun, then finalization, the sweep in one order and the
    clearing in the other. *)
Example finalize_two_kernels :
  ∃ st',
    kokkosp_finalize_library gmap_order_reversed gmap_order example_two_kernels
      = Ok (tt, st')
    ∧ profile_map st' = ∅
    ∧ trace st' = trace example_two_kernels
                  ++ [ev_stop "kokkos/dev2/saxpy"; ev_stop "kokkos/dev0/dot";
                      ev_destruct "kokkos/dev0/dot"; ev_destruct "kokkos/dev2/saxpy";
                      ev_timemory_finalize].
Proof.
  eexists. split; [vm_compute; reflexivity|].
  split; vm_compute; reflexivity.
Qed.

(** ** The region stack *)

Lemma dispatch_stack sz c st :
  (0 < sz)%nat →
  ∃ st', dispatch sz c st = Ok (tt, st')
         ∧ profile_stack st' = stack_after c (profile_stack st).
Proof.
  intros H.
  destruct c as [name d k|k|name d k|k|name d k|k|name| |name s|s|s|s];
    cbn [dispatch stack_after]; unfold discard, bind.
  - rewrite begin_parallel_for_spec by exact H. eexists. split; [reflexivity|].
    unfold begun. cbn zeta. destruct (profile_map st !! unique_id st); reflexivity.
  - rewrite end_parallel_for_spec by exact H. eexists. split; [reflexivity|].
    destruct (profile_map st !! k); reflexivity.
  - change (kokkosp_begin_parallel_reduce sz) with (kokkosp_begin_parallel_for sz).
    rewrite begin_parallel_for_spec by exact H. eexists. split; [reflexivity|].
    unfold begun. cbn zeta. destruct (profile_map st !! unique_id st); reflexivity.
  - change (kokkosp_end_parallel_reduce sz) with (kokkosp_end_parallel_for sz).
    rewrite end_parallel_for_spec by exact H. eexists. split; [reflexivity|].
    destruct (profile_map st !! k); reflexivity.
  - change (kokkosp_begin_parallel_scan sz) with (kokkosp_begin_parallel_for sz).
    rewrite begin_parallel_for_spec by exact H. eexists. split; [reflexivity|].
    unfold begun. cbn zeta. destruct (profile_map st !! unique_id st); reflexivity.
  - change (kokkosp_end_parallel_scan sz) with (kokkosp_end_parallel_for sz).
    rewrite end_parallel_for_spec by exact H. eexists. split; [reflexivity|].
    destruct (profile_map st !! k); reflexivity.
  - rewrite push_profile_region_spec by exact H. eexists. split; reflexivity.
  - destruct (profile_stack st) as [|e s _] eqn:E using rev_ind.
    + rewrite pop_profile_region_empty by exact E. eexists.
      split; [reflexivity | exact E].
    + rewrite (pop_profile_region_snoc _ _ s e) by assumption. eexists.
      split; [reflexivity|]. rewrite removelast_last. reflexivity.
  - rewrite create_profile_section_spec by exact H. eexists. split; [reflexivity|].
    unfold section_created. cbn zeta.
    destruct (profile_map st !! (unique_id st mod uint32_max)); reflexivity.
  - unfold kokkosp_destroy_profile_section. rewrite (enabled_pos _ H).
    rewrite destroy_profiler_spec. eexists. split; [reflexivity|].
    destruct (profile_map st !! s); reflexivity.
  - unfold kokkosp_start_profile_section. rewrite (enabled_pos _ H).
    rewrite start_profiler_spec. eexists. split; [reflexivity|].
    destruct (profile_map st !! s); reflexivity.
  - unfold kokkosp_stop_profile_section. rewrite (enabled_pos _ H).
    rewrite start_profiler_spec. eexists. split; [reflexivity|].
    destruct (profile_map st !! s); reflexivity.
Qed.

Lemma length_removelast {A} (s : list A) :
  s ≠ [] → S (length (removelast s)) = length s.
Proof.
  intros Hne. destruct s as [|x s _] using rev_ind; [congruence|].
  rewrite removelast_last, length_app. simpl. lia.
Qed.

Lemma run_stack_depth sz cs st :
  (0 < sz)%nat →
  never_underflows (length (profile_stack st)) cs = true →
  ∃ st', run sz cs st = Ok (tt, st')
         ∧ (length (profile_stack st') + pops cs
            = length (profile_stack st) + pushes cs)%nat.
Proof.
  intros H. revert st. induction cs as [|c cs IH]; intros st Hnu.
  - exists st. split; [reflexivity|]. simpl. lia.
  - destruct (dispatch_stack sz c st H) as (st1 & E1 & Hs1).
    assert (Hnext : never_underflows (length (profile_stack st1)) cs = true
                    ∧ (length (profile_stack st1) + pops (c :: cs) + pushes cs
                       = length (profile_stack st) + pushes (c :: cs) + pops cs)%nat).
    { rewrite Hs1. destruct c; cbn [stack_after never_underflows pushes pops] in *;
        try (split; [exact Hnu | lia]).
      - rewrite length_app. simpl. rewrite Nat.add_1_r. split; [exact Hnu | lia].
      - destruct (profile_stack st) as [|x s] eqn:Es; [discriminate|].
        assert (Hl : S (length (removelast (x :: s))) = length (x :: s))
          by (apply length_removelast; discriminate).
        change (length (x :: s)) with (S (length s)) in Hl, Hnu |- *.
        assert (Hl' : length (removelast (x :: s)) = length s) by lia.
        rewrite Hl'. split; [exact Hnu | lia]. }
    destruct Hnext as [Hnu1 Hcount].
    destruct (IH st1 Hnu1) as (st2 & E2 & Hd).
    exists st2. simpl run. unfold bind. rewrite E1. split; [exact E2 | lia].
Qed.

(** C7, as it is stated, fails on the code.  With a component compiled in, a
    pop followed by a push is one push and one pop, yet the stack ends at
    depth 1: the pop met an empty stack and did nothing.  With no component
    compiled in, one push leaves the depth at 0. *)
Lemma pop_before_push_depth :
  pushes example_pop_then_push = 1%nat
  ∧ pops example_pop_then_push = 1%nat
  ∧ (pops example_pop_then_push ≤ pushes example_pop_then_push)%nat
  ∧ (∃ st, run 1 example_pop_then_push tl_init = Ok (tt, st)
           ∧ length (profile_stack st) = 1%nat
           ∧ length (profile_stack st)
             ≠ (pushes example_pop_then_push - pops example_pop_then_push)%nat)
  ∧ (∃ st, run 0 [push_profile_region "a"] tl_init = Ok (tt, st)
           ∧ length (profile_stack st) = 0%nat
           ∧ length (profile_stack st)
             ≠ (pushes [push_profile_region "a"] - pops [push_profile_region "a"])%nat).
Proof.
  split; [reflexivity|]. split; [reflexivity|]. split; [simpl; lia|].
  split.
  - eexists. split; [vm_compute; reflexivity|]. split; [reflexivity|].
    simpl. discriminate.
  - exists tl_init. split; [reflexivity|]. split; [reflexivity|].
    simpl. discriminate.
Qed.

(** C7, amended.  With at least one component compiled in, and for a sequence
    of callbacks on a fresh thread in which no pop meets an empty stack, the
    depth of the stack at the end is the number of pushes minus the number of
    pops.  A push appends a started bundle for its name; a pop on a non-empty
    stack stops the last element and then removes it, so a pop right after a
    push removes what was pushed; a pop on an empty stack returns the state
    unchanged. *)
Theorem stack_discipline sz cs :
  (0 < sz)%nat → never_underflows 0 cs = true →
  ∃ st, run sz cs tl_init = Ok (tt, st)
        ∧ (pops cs ≤ pushes cs)%nat
        ∧ length (profile_stack st) = (pushes cs - pops cs)%nat
        ∧ (∀ st0 name, ∃ st1 st2,
             kokkosp_push_profile_region sz name st0 = Ok (tt, st1)
             ∧ profile_stack st1
               = profile_stack st0 ++ [mk_profile_entry name true [call_start]]
             ∧ kokkosp_pop_profile_region sz st1 = Ok (tt, st2)
             ∧ profile_stack st2 = profile_stack st0
             ∧ trace st2 = trace st1 ++ [ev_stop name; ev_destruct name])
        ∧ (∀ st0 s e, profile_stack st0 = s ++ [e] →
             ∃ st1, kokkosp_pop_profile_region sz st0 = Ok (tt, st1)
                    ∧ profile_stack st1 = s
                    ∧ trace st1 = trace st0 ++ [ev_stop (key e); ev_destruct (key e)])
        ∧ (∀ st0, profile_stack st0 = [] →
             kokkosp_pop_profile_region sz st0 = Ok (tt, st0)).
Proof.
  intros Hsz Hnu.
  destruct (run_stack_depth sz cs tl_init Hsz Hnu) as (st & Hrun & Hdepth).
  simpl in Hdepth.
  exists st. split; [exact Hrun|]. split; [lia|]. split; [lia|].
  split; [|split].
  - intros st0 name. eexists. eexists.
    split; [apply push_profile_region_spec, Hsz|].
    split; [reflexivity|].
    split; [apply pop_profile_region_snoc; [exact Hsz | reflexivity]|].
    split; reflexivity.
  - intros st0 s e E. eexists.
    split; [apply pop_profile_region_snoc; [exact Hsz | exact E]|].
    split; reflexivity.
  - intros st0 E. apply pop_profile_region_empty, E.
Qed.

Lemma stack_discipline_witness :
  ∃ st, run 1 example_regions tl_init = Ok (tt, st)
        ∧ (pops example_regions ≤ pushes example_regions)%nat
        ∧ length (profile_stack st) = (pushes example_regions - pops example_regions)%nat
        ∧ (∀ st0 name, ∃ st1 st2,
             kokkosp_push_profile_region 1 name st0 = Ok (tt, st1)
             ∧ profile_stack st1
               = profile_stack st0 ++ [mk_profile_entry name true [call_start]]
             ∧ kokkosp_pop_profile_region 1 st1 = Ok (tt, st2)
             ∧ profile_stack st2 = profile_stack st0
             ∧ trace st2 = trace st1 ++ [ev_stop name; ev_destruct name])
        ∧ (∀ st0 s e, profile_stack st0 = s ++ [e] →
             ∃ st1, kokkosp_pop_profile_region 1 st0 = Ok (tt, st1)
                    ∧ profile_stack st1 = s
                    ∧ trace st1 = trace st0 ++ [ev_stop (key e); ev_destruct (key e)])
        ∧ (∀ st0, profile_stack st0 = [] →
             kokkosp_pop_profile_region 1 st0 = Ok (tt, st0)).
Proof.
  apply (stack_discipline 1 example_regions).
  - lia.
  - reflexivity.
Defined.

(** ** Sections: creation *)

Lemma pretty_N_char_digit x : is_digit (pretty_N_char x) = true.
Proof. unfold pretty_N_char. repeat case_match; reflexivity. Qed.

Lemma pretty_N_go_digits x :
  ∀ s, all_digits s = true → all_digits (pretty_N_go x s) = true.
Proof.
  induction (N.lt_wf_0 x) as [x _ IH]. intros s Hs.
  destruct (decide (x = 0)%N) as [->|Hx].
  - rewrite pretty_N_go_0. exact Hs.
  - rewrite pretty_N_go_step by lia. apply IH.
    + apply N.div_lt; lia.
    + simpl. rewrite pretty_N_char_digit, Hs. reflexivity.
Qed.

Lemma show_unsigned_digits n : all_digits (show_unsigned n) = true.
Proof.
  unfold show_unsigned, pretty, pretty_N. case_decide; [reflexivity|].
  apply pretty_N_go_digits. reflexivity.
Qed.

(** The name a section is registered under spells the address of the
    out-parameter; whatever the address and the id, it is not the name with
    the id in decimal. *)
Lemma section_pname_not_decimal name a s :
  section_pname name a ≠ "kokkos/section" +:+ show_unsigned s +:+ "/" +:+ name.
Proof.
  unfold section_pname, show_pointer. cbn [TIMEMORY_JOIN].
  pose proof (show_unsigned_digits s) as Hd.
  generalize dependent (show_unsigned s). intros d Hd.
  generalize (HexadecimalString.NilZero.string_of_uint (N.to_hex_uint a)).
  intros hex Heq. simpl in Heq.
  destruct d as [|c1 [|c2 d]]; simpl in Heq, Hd.
  - discriminate.
  - discriminate.
  - injection Heq as _ Hc _. subst c2.
    apply andb_prop in Hd as [_ Hd]. apply andb_prop in Hd as [Hd _].
    discriminate Hd.
Qed.

(** C2, evaluated on the code.  The claim is that the section is registered
    as "kokkos/section<s>/<n>" with the returned id [s] in decimal.  On a
    fresh thread, with the out-parameter at address 0x7ffd17a2d200,
    [create_section("phase1")] returns id 0 and registers the bundle as
    "kokkos/section0x7ffd17a2d200/phase1", not as "kokkos/section0/phase1":
    the name is built from the pointer [secid], not from the id [*secid]. *)
Theorem create_section_names_by_address :
  ∃ st,
    kokkosp_create_profile_section 1 "phase1" example_out tl_init
      = Ok (mk_out_param (address example_out) 0, st)
    ∧ key <$> profile_map st !! 0%N = Some "kokkos/section0x7ffd17a2d200/phase1"
    ∧ key <$> profile_map st !! 0%N
      ≠ Some ("kokkos/section" +:+ show_unsigned 0 +:+ "/" +:+ "phase1").
Proof.
  eexists. split; [rewrite create_profile_section_spec by lia; reflexivity|].
  split; [vm_compute; reflexivity|].
  vm_compute. discriminate.
Qed.

(** C3, as it is stated, fails on the code.  After one [create_section] on a
    fresh thread the section map holds nothing, under id 0 or elsewhere, and
    the session sits in the profile map, the map of the kernels. *)
Lemma created_section_in_profile_map :
  ∃ st, run 1 [create_profile_section "phase1" example_out] tl_init = Ok (tt, st)
        ∧ section_map st !! 0%N = None
        ∧ section_map st = ∅
        ∧ is_Some (profile_map st !! 0%N).
Proof.
  eexists. split; [vm_compute; reflexivity|].
  split; [reflexivity|]. split; [reflexivity|].
  vm_compute. eauto.
Qed.

(** C3, amended.  Sections and kernels share one map.  With at least one
    component compiled in, on a thread that has run any sequence of fewer
    than [2^32] callbacks, [create_section] returns an id below [2^32] that
    was free in the profile map and inserts its session, not started, into
    the profile map under that id; the start and destroy callbacks of
    sections find it there.  The section map is empty before and after: no
    callback inserts into it or looks anything up in it. *)
Theorem sections_share_profile_map sz cs name secid :
  (0 < sz)%nat → (N.of_nat (length cs) < uint32_max)%N →
  ∃ st s st' e,
    run sz cs tl_init = Ok (tt, st)
    ∧ section_map st = ∅
    ∧ kokkosp_create_profile_section sz name secid st
        = Ok (mk_out_param (address secid) s, st')
    ∧ (s < uint32_max)%N
    ∧ profile_map st !! s = None
    ∧ profile_map st' !! s = Some e
    ∧ calls e = []
    ∧ section_map st' = ∅
    ∧ (∃ st2, kokkosp_start_profile_section sz s st' = Ok (tt, st2)
              ∧ profile_map st2 !! s = Some (entry_start e)
              ∧ section_map st2 = ∅)
    ∧ (∃ st3, kokkosp_destroy_profile_section sz s st' = Ok (tt, st3)
              ∧ profile_map st3 !! s = None
              ∧ section_map st3 = ∅).
Proof.
  intros Hsz Hlen.
  assert (Hlen64 : (N.of_nat (length cs) < uint64_max)%N).
  { eapply N.lt_trans; [exact Hlen | reflexivity]. }
  destruct (run_from_init sz cs Hlen64) as (st & Hrun & Hinv & Hle & Hsec).
  pose proof (next_handle_free st Hinv) as Hfree.
  assert (Hs : unique_id st mod uint32_max = unique_id st)
    by (apply N.mod_small; lia).
  set (pname := section_pname name (address secid)).
  assert (Hin : profile_map (section_created pname st) !! unique_id st
                = Some (mk_profile_entry pname true [])).
  { unfold section_created. cbn zeta. rewrite Hs, Hfree. simpl.
    apply lookup_insert_eq. }
  exists st, (unique_id st), (section_created pname st), (mk_profile_entry pname true []).
  split; [exact Hrun|]. split; [exact Hsec|].
  split; [rewrite create_profile_section_spec by exact Hsz; rewrite Hs; reflexivity|].
  split; [lia|]. split; [exact Hfree|]. split; [exact Hin|]. split; [reflexivity|].
  assert (Hsec' : section_map (section_created pname st) = ∅).
  { rewrite <- Hsec. apply (effect_section_map _ _ (effect_section_created pname st)). }
  split; [exact Hsec'|]. split.
  - eexists. unfold kokkosp_start_profile_section. rewrite (enabled_pos _ Hsz).
    rewrite start_profiler_spec, Hin.
    split; [reflexivity|]. split; [simpl; apply lookup_insert_eq | exact Hsec'].
  - eexists. unfold kokkosp_destroy_profile_section. rewrite (enabled_pos _ Hsz).
    rewrite destroy_profiler_spec, Hin.
    split; [reflexivity|]. split; [simpl; apply lookup_delete_eq | exact Hsec'].
Qed.

Lemma sections_share_profile_map_witness :
  ∃ st s st' e,
    run 1 example_regions tl_init = Ok (tt, st)
    ∧ section_map st = ∅
    ∧ kokkosp_create_profile_section 1 "phase1" example_out st
        = Ok (mk_out_param (address example_out) s, st')
    ∧ (s < uint32_max)%N
    ∧ profile_map st !! s = None
    ∧ profile_map st' !! s = Some e
    ∧ calls e = []
    ∧ section_map st' = ∅
    ∧ (∃ st2, kokkosp_start_profile_section 1 s st' = Ok (tt, st2)
              ∧ profile_map st2 !! s = Some (entry_start e)
              ∧ section_map st2 = ∅)
    ∧ (∃ st3, kokkosp_destroy_profile_section 1 s st' = Ok (tt, st3)
              ∧ profile_map st3 !! s = None
              ∧ section_map st3 = ∅).
Proof.
  apply (sections_share_profile_map 1 example_regions "phase1" example_out).
  - lia.
  - vm_compute. reflexivity.
Defined.

(** * Further properties of the connector *)

(** ** Sequences *)

Lemma run_app sz cs1 cs2 st :
  run sz (cs1 ++ cs2) st = (run sz cs1 ;; run sz cs2) st.
Proof.
  revert st. induction cs1 as [|c cs1 IH]; intros st.
  - reflexivity.
  - simpl. unfold bind.
    destruct (dispatch sz c st) as [[[] st1]|e]; [|reflexivity].
    rewrite IH. reflexivity.
Qed.

Lemma run_app_ok sz cs1 cs2 st st1 st2 :
  run sz cs1 st = Ok (tt, st1) → run sz cs2 st1 = Ok (tt, st2) →
  run sz (cs1 ++ cs2) st = Ok (tt, st2).
Proof. intros E1 E2. rewrite run_app. unfold bind. rewrite E1. exact E2. Qed.

(** ** The handle counter *)

Lemma run_counter sz cs st :
  (unique_id st + N.of_nat (length cs) < uint64_max)%N →
  ∃ st', run sz cs st = Ok (tt, st')
         ∧ (unique_id st ≤ unique_id st')%N
         ∧ (unique_id st' ≤ unique_id st + N.of_nat (length cs))%N.
Proof.
  revert st. induction cs as [|c cs IH]; intros st Hlt.
  - exists st. split; [reflexivity|]. simpl. lia.
  - cbn [length] in Hlt. rewrite Nat2N.inj_succ in Hlt.
    destruct (dispatch_effect sz c st) as (st1 & E1 & [_ Hc _]).
    assert (Hstep : (unique_id st ≤ unique_id st1 ≤ unique_id st + 1)%N).
    { destruct Hc as [-> | ->]; [lia|]. rewrite N.mod_small by lia. lia. }
    destruct (IH st1) as (st2 & E2 & Hlo & Hhi); [lia|].
    exists st2. simpl run. unfold bind. rewrite E1. split; [exact E2|].
    cbn [length]. rewrite Nat2N.inj_succ. lia.
Qed.

(** Handles grow.  On one thread, a kernel begin that comes after another
    one, with any callbacks before and in between, returns a strictly larger
    handle, as long as the counter has not run through all of [uint64_t]. *)
Theorem kernel_handles_strictly_increase sz cs1 cs2 n1 d1 k1 n2 d2 k2 :
  (0 < sz)%nat →
  (N.of_nat (length cs1) + N.of_nat (length cs2) + 1 < uint64_max)%N →
  ∃ st1 h1 st1' st2 h2 st2',
    run sz cs1 tl_init = Ok (tt, st1)
    ∧ kokkosp_begin_parallel_for sz n1 d1 k1 st1
        = Ok (mk_out_param (address k1) h1, st1')
    ∧ run sz cs2 st1' = Ok (tt, st2)
    ∧ kokkosp_begin_parallel_for sz n2 d2 k2 st2
        = Ok (mk_out_param (address k2) h2, st2')
    ∧ (h1 < h2)%N.
Proof.
  intros Hsz Hlen.
  destruct (run_counter sz cs1 tl_init) as (st1 & E1 & _ & Hhi1); [simpl; lia|].
  simpl in Hhi1.
  set (st1' := begun (kernel_pname n1 d1) st1).
  assert (Hc1 : unique_id st1' = (unique_id st1 + 1)%N).
  { subst st1'. unfold begun. cbn zeta.
    destruct (profile_map st1 !! unique_id st1); simpl; apply N.mod_small; lia. }
  destruct (run_counter sz cs2 st1') as (st2 & E2 & Hlo2 & _); [lia|].
  exists st1, (unique_id st1), st1', st2, (unique_id st2),
         (begun (kernel_pname n2 d2) st2).
  split; [exact E1|].
  split; [apply begin_parallel_for_spec, Hsz|].
  split; [exact E2|].
  split; [apply begin_parallel_for_spec, Hsz|].
  lia.
Qed.

Lemma kernel_handles_strictly_increase_witness :
  ∃ st1 h1 st1' st2 h2 st2',
    run 1 example_regions tl_init = Ok (tt, st1)
    ∧ kokkosp_begin_parallel_for 1 "saxpy" 2 example_out st1
        = Ok (mk_out_param (address example_out) h1, st1')
    ∧ run 1 example_pop_then_push st1' = Ok (tt, st2)
    ∧ kokkosp_begin_parallel_for 1 "dot" 0 example_out st2
        = Ok (mk_out_param (address example_out) h2, st2')
    ∧ (h1 < h2)%N.
Proof.
  apply (kernel_handles_strictly_increase 1 example_regions example_pop_then_push
           "saxpy" 2 example_out "dot" 0 example_out).
  - lia.
  - vm_compute. reflexivity.
Defined.

(** ** Begin and end as a round trip *)

(** A kernel begin followed by the end of the handle it returned puts the
    profile map back exactly as it was, on a thread that has run fewer than
    [2^64] callbacks; the stack is untouched and the trace has grown by the
    four calls on the one bundle, in order. *)
Theorem begin_end_restores_profile_map sz cs name devid kernid :
  (0 < sz)%nat → (N.of_nat (length cs) < uint64_max)%N →
  ∃ st h st1 st2,
    run sz cs tl_init = Ok (tt, st)
    ∧ kokkosp_begin_parallel_for sz name devid kernid st
        = Ok (mk_out_param (address kernid) h, st1)
    ∧ kokkosp_end_parallel_for sz h st1 = Ok (tt, st2)
    ∧ profile_map st2 = profile_map st
    ∧ profile_stack st2 = profile_stack st
    ∧ section_map st2 = section_map st
    ∧ trace st2 = trace st ++ [ev_construct (kernel_pname name devid);
                               ev_start (kernel_pname name devid);
                               ev_stop (kernel_pname name devid);
                               ev_destruct (kernel_pname name devid)].
Proof.
  intros Hsz Hlen.
  destruct (run_from_init sz cs Hlen) as (st & Hrun & Hinv & _ & _).
  pose proof (next_handle_free st Hinv) as Hfree.
  set (pname := kernel_pname name devid).
  assert (Hin : profile_map (begun pname st) !! unique_id st
                = Some (mk_profile_entry pname true [call_start])).
  { unfold begun. cbn zeta. rewrite Hfree. simpl. apply lookup_insert_eq. }
  eexists st, (unique_id st), (begun pname st), _.
  split; [exact Hrun|].
  split; [apply begin_parallel_for_spec, Hsz|].
  split; [rewrite end_parallel_for_spec by exact Hsz; rewrite Hin; reflexivity|].
  unfold begun. cbn zeta. rewrite Hfree. simpl.
  split; [|split; [reflexivity|split; [reflexivity|]]].
  - rewrite insert_insert_eq, delete_insert_eq. apply delete_id, Hfree.
  - rewrite <- !app_assoc. reflexivity.
Qed.

Lemma begin_end_restores_profile_map_witness :
  ∃ st h st1 st2,
    run 1 example_regions tl_init = Ok (tt, st)
    ∧ kokkosp_begin_parallel_for 1 "dot" 0 example_out st
        = Ok (mk_out_param (address example_out) h, st1)
    ∧ kokkosp_end_parallel_for 1 h st1 = Ok (tt, st2)
    ∧ profile_map st2 = profile_map st
    ∧ profile_stack st2 = profile_stack st
    ∧ section_map st2 = section_map st
    ∧ trace st2 = trace st ++ [ev_construct (kernel_pname "dot" 0);
                               ev_start (kernel_pname "dot" 0);
                               ev_stop (kernel_pname "dot" 0);
                               ev_destruct (kernel_pname "dot" 0)].
Proof.
  apply (begin_end_restores_profile_map 1 example_regions "dot" 0 example_out).
  - lia.
  - vm_compute. reflexivity.
Defined.

(** ** Ending kernels *)

(** Whether or not the handle is registered, a kernel end leaves the profile
    map with the handle erased and everything else in place. *)
Lemma end_parallel_for_erases sz h st :
  (0 < sz)%nat →
  ∃ st', kokkosp_end_parallel_for sz h st = Ok (tt, st')
         ∧ profile_map st' = delete h (profile_map st)
         ∧ profile_stack st' = profile_stack st
         ∧ section_map st' = section_map st
         ∧ unique_id st' = unique_id st.
Proof.
  intros Hsz. rewrite end_parallel_for_spec by exact Hsz.
  destruct (profile_map st !! h) as [e|] eqn:E; eexists; (split; [reflexivity|]).
  - repeat split.
  - split; [symmetry; apply delete_id, E|]. repeat split.
Qed.

Lemma run_ends sz hs st :
  (0 < sz)%nat →
  ∃ st', run sz (ends hs) st = Ok (tt, st')
         ∧ (∀ k, k ∈ hs → profile_map st' !! k = None)
         ∧ (∀ k, k ∉ hs → profile_map st' !! k = profile_map st !! k)
         ∧ profile_stack st' = profile_stack st
         ∧ unique_id st' = unique_id st.
Proof.
  intros Hsz. revert st. induction hs as [|h hs IH]; intros st.
  - exists st. split; [reflexivity|]. split; [|repeat split].
    intros k Hk. apply elem_of_nil in Hk. destruct Hk.
  - destruct (end_parallel_for_erases sz h st Hsz) as (st1 & E1 & Hm1 & Hs1 & _ & Hc1).
    destruct (IH st1) as (st2 & E2 & Hin & Hout & Hs2 & Hc2).
    exists st2. unfold ends. cbn [fmap list_fmap run dispatch]. unfold bind.
    rewrite E1. split; [exact E2|].
    split; [|split; [|split; congruence]].
    + intros k Hk. destruct (decide (k ∈ hs)) as [Hk'|Hk']; [apply Hin, Hk'|].
      apply elem_of_cons in Hk as [->|Hk]; [|contradiction].
      rewrite (Hout h Hk'), Hm1. apply lookup_delete_eq.
    + intros k Hk. apply not_elem_of_cons in Hk as [Hne Hk].
      rewrite (Hout k Hk), Hm1. apply lookup_delete_ne. congruence.
Qed.

(** No session outlives the end of its handle.  After any sequence of fewer
    than [2^64] callbacks on a fresh thread, ending every handle below the
    number of callbacks issued (in any order, repetitions and unknown handles
    allowed) leaves the profile map empty; the stack is not touched. *)
Theorem ending_all_handles_empties_profile_map sz cs hs :
  (0 < sz)%nat → (N.of_nat (length cs) < uint64_max)%N →
  (∀ h, (h < N.of_nat (length cs))%N → h ∈ hs) →
  ∃ st st',
    run sz cs tl_init = Ok (tt, st)
    ∧ run sz (ends hs) st = Ok (tt, st')
    ∧ run sz (cs ++ ends hs) tl_init = Ok (tt, st')
    ∧ profile_map st' = ∅
    ∧ profile_stack st' = profile_stack st.
Proof.
  intros Hsz Hlen Hall.
  destruct (run_from_init sz cs Hlen) as (st & Hrun & Hinv & Hle & _).
  destruct (run_ends sz hs st Hsz) as (st' & Hends & Hin & Hout & Hs & _).
  exists st, st'. split; [exact Hrun|]. split; [exact Hends|].
  split; [exact (run_app_ok _ _ _ _ _ _ Hrun Hends)|].
  split; [|exact Hs].
  apply map_empty. intros k.
  destruct (decide (k ∈ hs)) as [Hk|Hk]; [apply Hin, Hk|].
  rewrite (Hout k Hk).
  destruct (profile_map st !! k) as [e|] eqn:E; [|reflexivity].
  exfalso. apply Hk, Hall.
  assert (k < unique_id st)%N by (apply Hinv; rewrite E; eauto). lia.
Qed.

Lemma ending_all_handles_empties_profile_map_witness :
  ∃ st st',
    run 1 example_regions tl_init = Ok (tt, st)
    ∧ run 1 (ends [7; 4; 0; 1; 3; 2; 0]%N) st = Ok (tt, st')
    ∧ run 1 (example_regions ++ ends [7; 4; 0; 1; 3; 2; 0]%N) tl_init = Ok (tt, st')
    ∧ profile_map st' = ∅
    ∧ profile_stack st' = profile_stack st.
Proof.
  apply (ending_all_handles_empties_profile_map 1 example_regions [7; 4; 0; 1; 3; 2; 0]%N).
  - lia.
  - vm_compute. reflexivity.
  - intros h Hh. change (N.of_nat (length example_regions)) with 5%N in Hh.
    assert (Hcases : h = 0%N ∨ h = 1%N ∨ h = 2%N ∨ h = 3%N ∨ h = 4%N) by lia.
    destruct Hcases as [->|[->|[->|[->| ->]]]];
      apply (bool_decide_unpack _); vm_compute; exact I.
Defined.

(** ** What a callback leaves alone *)

(** A callback that takes a handle (the kernel ends, and the destroy, start
    and stop of sections) changes nothing about any other handle: the bundle
    registered under a different handle, calls received included, is the same
    before and after, and so are the stack, the section map and the counter.
    This holds in every configuration and whether or not the handle is
    registered. *)
Theorem other_handles_untouched sz c k k' st :
  handle_of c = Some k → k' ≠ k →
  ∃ st', dispatch sz c st = Ok (tt, st')
         ∧ profile_map st' !! k' = profile_map st !! k'
         ∧ profile_stack st' = profile_stack st
         ∧ section_map st' = section_map st
         ∧ unique_id st' = unique_id st.
Proof.
  intros Hc Hne. destruct sz as [|n].
  { exists st. split; [apply dispatch_disabled|]. repeat split. }
  assert (H : (0 < S n)%nat) by lia.
  assert (Hend : ∃ st', kokkosp_end_parallel_for (S n) k st = Ok (tt, st')
                        ∧ profile_map st' !! k' = profile_map st !! k'
                        ∧ profile_stack st' = profile_stack st
                        ∧ section_map st' = section_map st
                        ∧ unique_id st' = unique_id st).
  { destruct (end_parallel_for_erases (S n) k st H) as (st' & E & Hm & Hrest).
    exists st'. split; [exact E|]. split; [|exact Hrest].
    rewrite Hm. apply lookup_delete_ne. congruence. }
  assert (Hstart : ∃ st', start_profiler k st = Ok (tt, st')
                          ∧ profile_map st' !! k' = profile_map st !! k'
                          ∧ profile_stack st' = profile_stack st
                          ∧ section_map st' = section_map st
                          ∧ unique_id st' = unique_id st).
  { rewrite start_profiler_spec. eexists. split; [reflexivity|].
    destruct (profile_map st !! k); [|repeat split].
    split; [simpl; apply lookup_insert_ne; congruence | repeat split]. }
  destruct c; simplify_eq/=; try exact Hend.
  - unfold kokkosp_destroy_profile_section. rewrite (enabled_pos _ H).
    rewrite destroy_profiler_spec. eexists. split; [reflexivity|].
    destruct (profile_map st !! k); [|repeat split].
    split; [simpl; apply lookup_delete_ne; congruence | repeat split].
  - unfold kokkosp_start_profile_section. rewrite (enabled_pos _ H). exact Hstart.
  - unfold kokkosp_stop_profile_section. rewrite (enabled_pos _ H). exact Hstart.
Qed.

Lemma other_handles_untouched_witness :
  ∃ st', dispatch 1 (end_parallel_for 0) example_two_kernels = Ok (tt, st')
         ∧ profile_map st' !! 1%N = profile_map example_two_kernels !! 1%N
         ∧ profile_stack st' = profile_stack example_two_kernels
         ∧ section_map st' = section_map example_two_kernels
         ∧ unique_id st' = unique_id example_two_kernels.
Proof.
  apply (other_handles_untouched 1 (end_parallel_for 0) 0 1 example_two_kernels).
  - reflexivity.
  - discriminate.
Defined.

(** The region stack and the handle registry do not interfere.  A push or a
    pop leaves the profile map, the section map and the counter as they
    were; every other callback leaves the stack as it was. *)
Theorem regions_and_handles_independent sz c st :
  ∃ st', dispatch sz c st = Ok (tt, st')
         ∧ (is_region_callback c = true →
            profile_map st' = profile_map st
            ∧ section_map st' = section_map st
            ∧ unique_id st' = unique_id st)
         ∧ (is_region_callback c = false →
            profile_stack st' = profile_stack st).
Proof.
  destruct sz as [|n].
  { exists st. split; [apply dispatch_disabled|]. repeat split. }
  assert (H : (0 < S n)%nat) by lia.
  destruct (dispatch_stack (S n) c st H) as (st' & E & Hs).
  exists st'. split; [exact E|]. split.
  - intros Hc. destruct c; try discriminate Hc; cbn [dispatch] in E.
    + rewrite push_profile_region_spec in E by exact H.
      injection E as <-. repeat split.
    + destruct (profile_stack st) as [|e s _] eqn:Es using rev_ind.
      * rewrite pop_profile_region_empty in E by exact Es.
        injection E as <-. repeat split.
      * rewrite (pop_profile_region_snoc _ _ s e) in E by assumption.
        injection E as <-. repeat split.
  - intros Hc. rewrite Hs. destruct c; try discriminate Hc; reflexivity.
Qed.

(** ** Finalization as a sweep *)

Lemma enumerate_empty (o : map_order) : enumerate o ∅ = [].
Proof.
  apply Permutation_nil_r. rewrite enumerate_perm, map_to_list_empty. reflexivity.
Qed.




(** Once finalized, the registry is inert: ending any handle finds nothing,
    and a second finalization stops and destroys nothing, it only calls the
    library's finalization once more.  The stack is as it was throughout. *)
Theorem finalize_twice (sweep cleared sweep' cleared' : map_order) st :
  ∃ st1 st2,
    kokkosp_finalize_library sweep cleared st = Ok (tt, st1)
    ∧ (∀ sz h, kokkosp_end_parallel_for sz h st1 = Ok (tt, st1))
    ∧ kokkosp_finalize_library sweep' cleared' st1 = Ok (tt, st2)
    ∧ profile_map st2 = ∅
    ∧ profile_stack st2 = profile_stack st
    ∧ trace st2 = trace st1 ++ [ev_timemory_finalize].
Proof.
  eexists. eexists. split; [reflexivity|].
  split.
  { intros sz h. destruct sz as [|n]; [reflexivity|].
    rewrite end_parallel_for_spec by lia. simpl. rewrite lookup_empty. reflexivity. }
  split; [reflexivity|].
  split; [reflexivity|]. split; [reflexivity|].
  cbn [trace emit set_profile_map profile_map].
  rewrite fmap_empty, !enumerate_empty. cbn [fmap list_fmap].
  rewrite !app_nil_r. reflexivity.
Qed.

(** ** Narrowed section ids *)

(** A section id is the counter narrowed to 32 bits, and [insert] does not
    replace.  So when the narrowed counter equals a handle that is still
    registered, [create_section] returns that handle as the new id and
    registers nothing: the profile map is as before, and the bundle built for
    the section is constructed and destroyed again within the call.
    Destroying the "section" then erases the session that was registered
    first. *)
Theorem section_id_aliases_registered_handle sz name secid st k e :
  (0 < sz)%nat →
  unique_id st mod uint32_max = k →
  profile_map st !! k = Some e →
  ∃ st1 pname st2,
    kokkosp_create_profile_section sz name secid st
      = Ok (mk_out_param (address secid) k, st1)
    ∧ profile_map st1 = profile_map st
    ∧ trace st1 = trace st ++ [ev_construct pname; ev_destruct pname]
    ∧ kokkosp_destroy_profile_section sz k st1 = Ok (tt, st2)
    ∧ profile_map st2 = delete k (profile_map st)
    ∧ trace st2 = trace st1 ++ [ev_destruct (key e)].
Proof.
  intros Hsz Hk E.
  exists (section_created (section_pname name (address secid)) st),
         (section_pname name (address secid)).
  assert (Hcreated : section_created (section_pname name (address secid)) st
                     = emit [ev_destruct (section_pname name (address secid))]
                         (emit [ev_construct (section_pname name (address secid))]
                            (set_unique_id ((unique_id st + 1) mod uint64_max) st))).
  { unfold section_created. cbn zeta. rewrite Hk, E. reflexivity. }
  eexists.
  split; [rewrite create_profile_section_spec by exact Hsz; rewrite Hk; reflexivity|].
  rewrite Hcreated.
  split; [reflexivity|].
  split; [simpl; rewrite <- app_assoc; reflexivity|].
  unfold kokkosp_destroy_profile_section. rewrite (enabled_pos _ Hsz).
  rewrite destroy_profiler_spec. cbn [profile_map emit set_unique_id]. rewrite E.
  split; [reflexivity|]. split; reflexivity.
Qed.

Lemma section_id_aliases_registered_handle_witness :
  ∃ st1 pname st2,
    kokkosp_create_profile_section 1 "phase1" example_out example_wrapped32
      = Ok (mk_out_param (address example_out) 0, st1)
    ∧ profile_map st1 = profile_map example_wrapped32
    ∧ trace st1 = trace example_wrapped32 ++ [ev_construct pname; ev_destruct pname]
    ∧ kokkosp_destroy_profile_section 1 0 st1 = Ok (tt, st2)
    ∧ profile_map st2 = delete 0%N (profile_map example_wrapped32)
    ∧ trace st2 = trace st1
                  ++ [ev_destruct (key (mk_profile_entry "kokkos/dev0/outer" true [call_start]))].
Proof.
  apply (section_id_aliases_registered_handle 1 "phase1" example_out example_wrapped32 0
           (mk_profile_entry "kokkos/dev0/outer" true [call_start])).
  - lia.
  - vm_compute. reflexivity.
  - vm_compute. reflexivity.
Defined.

(** The registry functions on a handle that is taken: [create_profiler]
    constructs the bundle, finds no place for it and destroys it, and the map
    is as it was. *)
Example create_profiler_twice :
  ∃ st, (create_profiler "a" 7 ;; create_profiler "b" 7) tl_init = Ok (tt, st)
        ∧ key <$> profile_map st !! 7%N = Some "a"
        ∧ trace st = [ev_construct "a"; ev_construct "b"; ev_destruct "b"].
Proof. eexists. split; [vm_compute; reflexivity|]. split; vm_compute; reflexivity. Qed.

(** ** Bundles constructed, destroyed and live *)

Lemma count_events_app p tr1 tr2 :
  count_events p (tr1 ++ tr2) = (count_events p tr1 + count_events p tr2)%nat.
Proof. induction tr1 as [|ev tr1 IH]; simpl; [reflexivity | rewrite IH; lia]. Qed.

Lemma conserved_begun pname st :
  profile_map st !! unique_id st = None → conserved st → conserved (begun pname st).
Proof.
  intros Hfree Hc. unfold conserved, begun in *. cbn zeta. rewrite Hfree. simpl.
  rewrite !count_events_app, insert_insert_eq, map_size_insert_None by exact Hfree.
  simpl. lia.
Qed.

Lemma conserved_stop_destroy k e st :
  profile_map st !! k = Some e → conserved st →
  conserved (emit [ev_stop (key e); ev_destruct (key e)]
               (set_profile_map (delete k (profile_map st)) st)).
Proof.
  intros E Hc. unfold conserved in *. simpl.
  rewrite !count_events_app. simpl.
  rewrite map_size_delete_Some by (rewrite E; eauto).
  assert (size (profile_map st) ≠ 0%nat)
    by (apply (map_size_ne_0_lookup_2 _ k); rewrite E; eauto).
  lia.
Qed.

Lemma conserved_erased k e st :
  profile_map st !! k = Some e → conserved st → conserved (erased k e st).
Proof.
  intros E Hc. unfold conserved in *. simpl.
  rewrite !count_events_app. simpl.
  rewrite map_size_delete_Some by (rewrite E; eauto).
  assert (size (profile_map st) ≠ 0%nat)
    by (apply (map_size_ne_0_lookup_2 _ k); rewrite E; eauto).
  lia.
Qed.

Lemma conserved_started k e st :
  profile_map st !! k = Some e → conserved st → conserved (started k e st).
Proof.
  intros E Hc. unfold conserved in *. simpl.
  rewrite !count_events_app, map_size_insert_Some by (rewrite E; eauto).
  simpl. lia.
Qed.

Lemma conserved_section_created pname st :
  profile_map st !! (unique_id st mod uint32_max) = None →
  conserved st → conserved (section_created pname st).
Proof.
  intros Hfree Hc. unfold conserved, section_created in *. cbn zeta.
  rewrite Hfree. simpl.
  rewrite !count_events_app, map_size_insert_None by exact Hfree.
  simpl. lia.
Qed.

Lemma dispatch_conserved sz c st :
  handles_below_counter st → (unique_id st < uint32_max)%N → conserved st →
  ∃ st', dispatch sz c st = Ok (tt, st') ∧ conserved st'.
Proof.
  intros Hinv Hlt Hc.
  destruct sz as [|n].
  { exists st. split; [apply dispatch_disabled | exact Hc]. }
  assert (H : (0 < S n)%nat) by lia.
  pose proof (next_handle_free st Hinv) as Hfree.
  assert (Hfree32 : profile_map st !! (unique_id st mod uint32_max) = None)
    by (rewrite N.mod_small by exact Hlt; exact Hfree).
  assert (Hbegin : ∀ name d k,
             ∃ st', discard (kokkosp_begin_parallel_for (S n) name d k) st = Ok (tt, st')
                    ∧ conserved st').
  { intros name d k. unfold discard, bind.
    rewrite begin_parallel_for_spec by exact H. eexists. split; [reflexivity|].
    apply conserved_begun; assumption. }
  assert (Hend : ∀ k, ∃ st', kokkosp_end_parallel_for (S n) k st = Ok (tt, st')
                             ∧ conserved st').
  { intros k. rewrite end_parallel_for_spec by exact H. eexists.
    split; [reflexivity|].
    destruct (profile_map st !! k) eqn:E; [apply conserved_stop_destroy|]; assumption. }
  assert (Hstart : ∀ k, ∃ st', start_profiler k st = Ok (tt, st') ∧ conserved st').
  { intros k. rewrite start_profiler_spec. eexists. split; [reflexivity|].
    destruct (profile_map st !! k) eqn:E; [apply conserved_started|]; assumption. }
  destruct c as [name d k|k|name d k|k|name d k|k|name| |name s|s|s|s];
    cbn [dispatch]; try apply Hbegin; try apply Hend.
  - rewrite push_profile_region_spec by exact H. eexists. split; [reflexivity|].
    unfold conserved in *. simpl. rewrite !count_events_app, length_app. simpl. lia.
  - destruct (profile_stack st) as [|e s _] eqn:E using rev_ind.
    + rewrite pop_profile_region_empty by exact E. eexists.
      split; [reflexivity | exact Hc].
    + rewrite (pop_profile_region_snoc _ _ s e) by assumption. eexists.
      split; [reflexivity|]. unfold conserved in *. simpl.
      rewrite E, length_app in Hc. simpl in Hc.
      rewrite !count_events_app. simpl. lia.
  - unfold discard, bind. rewrite create_profile_section_spec by exact H.
    eexists. split; [reflexivity|]. apply conserved_section_created; assumption.
  - unfold kokkosp_destroy_profile_section. rewrite (enabled_pos _ H).
    rewrite destroy_profiler_spec. eexists. split; [reflexivity|].
    destruct (profile_map st !! s) eqn:E; [apply conserved_erased|]; assumption.
  - unfold kokkosp_start_profile_section. rewrite (enabled_pos _ H). apply Hstart.
  - unfold kokkosp_stop_profile_section. rewrite (enabled_pos _ H). apply Hstart.
Qed.

Lemma run_conserved sz cs st n :
  handles_below_counter st → (unique_id st ≤ n)%N →
  (n + N.of_nat (length cs) < uint32_max)%N → conserved st →
  ∃ st', run sz cs st = Ok (tt, st') ∧ conserved st'.
Proof.
  revert st n. induction cs as [|c cs IH]; intros st n Hinv Hle Hlt Hc.
  - exists st. split; [reflexivity | exact Hc].
  - cbn [length] in Hlt. rewrite Nat2N.inj_succ in Hlt.
    destruct (dispatch_conserved sz c st Hinv) as (st1 & E1 & Hc1); [lia | exact Hc |].
    destruct (dispatch_effect sz c st) as (st1' & E1' & Heff).
    rewrite E1 in E1'. injection E1' as <-.
    assert (H3264 : (uint32_max < uint64_max)%N) by reflexivity.
    assert (Hlt64 : (unique_id st + 1 < uint64_max)%N) by lia.
    destruct (effect_preserves _ _ Heff Hinv Hlt64) as [Hinv1 Hle1].
    destruct (IH st1 (n + 1)%N Hinv1) as (st2 & E2 & Hc2); [lia | lia | exact Hc1 |].
    exists st2. simpl run. unfold bind. rewrite E1. split; [exact E2 | exact Hc2].
Qed.

(** No bundle is lost.  After any sequence of fewer than [2^32] callbacks on
    a fresh thread, the bundles constructed so far are exactly those
    destroyed so far, those registered in the profile map and those on the
    stack. *)
Theorem constructed_bundles_accounted_for sz cs :
  (N.of_nat (length cs) < uint32_max)%N →
  ∃ st, run sz cs tl_init = Ok (tt, st)
        ∧ count_events is_construct (trace st)
          = (count_events is_destruct (trace st)
             + size (profile_map st) + length (profile_stack st))%nat.
Proof.
  intros Hlen.
  apply (run_conserved sz cs tl_init 0 handles_below_counter_init).
  - simpl. lia.
  - lia.
  - unfold conserved. simpl. rewrite map_size_empty. reflexivity.
Qed.

Lemma constructed_bundles_accounted_for_witness :
  ∃ st, run 1 example_regions tl_init = Ok (tt, st)
        ∧ count_events is_construct (trace st)
          = (count_events is_destruct (trace st)
             + size (profile_map st) + length (profile_stack st))%nat.
Proof.
  apply (constructed_bundles_accounted_for 1 example_regions).
  vm_compute. reflexivity.
Defined.

(** ** Qualified names of kernels *)

Lemma digits_slash_inj d1 :
  ∀ d2 n1 n2,
    all_digits d1 = true → all_digits d2 = true →
    d1 +:+ "/" +:+ n1 = d2 +:+ "/" +:+ n2 → d1 = d2 ∧ n1 = n2.
Proof.
  induction d1 as [|c1 d1 IH]; intros [|c2 d2] n1 n2 H1 H2 Heq;
    simpl in H1, H2; cbv [String.append] in Heq.
  - injection Heq as ->. split; reflexivity.
  - injection Heq as <- _. discriminate H2.
  - injection Heq as -> _. discriminate H1.
  - injection Heq as -> Heq.
    apply andb_prop in H1 as [_ H1]. apply andb_prop in H2 as [_ H2].
    destruct (IH d2 n1 n2 H1 H2 Heq) as [-> ->]. split; reflexivity.
Qed.

(** Two kernels get the same qualified name only if they have the same name
    and run on the same device: the device id cannot run into the name. *)
Theorem kernel_pname_inj name devid name' devid' :
  kernel_pname name devid = kernel_pname name' devid' →
  name = name' ∧ devid = devid'.
Proof.
  rewrite !kernel_pname_eq. intros Heq.
  assert (Hrest : show_unsigned devid +:+ "/" +:+ name
                  = show_unsigned devid' +:+ "/" +:+ name')
    by (injection Heq as Heq; exact Heq).
  clear Heq. rename Hrest into Heq.
  apply digits_slash_inj in Heq as [Hd ->]; try apply show_unsigned_digits.
  split; [reflexivity|]. exact (inj pretty _ _ Hd).
Qed.

Lemma kernel_pname_inj_witness :
  "saxpy" = "saxpy" ∧ 12%N = 12%N.
Proof. apply (kernel_pname_inj "saxpy" 12 "saxpy" 12). reflexivity. Defined.

(** ** Nested regions *)

Lemma emit_emit_stack a b s s' st :
  emit b (set_profile_stack s (emit a (set_profile_stack s' st)))
  = emit (a ++ b) (set_profile_stack s st).
Proof. unfold emit, set_profile_stack. simpl. rewrite app_assoc. reflexivity. Qed.

Lemma emit_nil_stack st : emit [] (set_profile_stack (profile_stack st) st) = st.
Proof. destruct st. unfold emit, set_profile_stack. simpl. rewrite app_nil_r. reflexivity. Qed.

Lemma run_push_all sz names :
  (0 < sz)%nat →
  ∀ s st, run sz (push_all names) (emit [] (set_profile_stack s st))
          = Ok (tt, emit (push_events names) (set_profile_stack (s ++ pushed names) st)).
Proof.
  intros Hsz. induction names as [|n names IH]; intros s st.
  - simpl. unfold pushed. simpl. rewrite app_nil_r. reflexivity.
  - unfold push_all. cbn [fmap list_fmap run dispatch]. unfold bind.
    rewrite push_profile_region_spec by exact Hsz.
    cbn [profile_stack emit set_profile_stack].
    rewrite emit_emit_stack. cbn [app].
    rewrite <- (emit_emit_stack [ev_construct n; ev_start n] []
                  (s ++ [mk_profile_entry n true [call_start]]) s st) at 1.
    fold (push_all names). rewrite IH, emit_emit_stack.
    unfold pushed. cbn [fmap list_fmap]. rewrite <- app_assoc. reflexivity.
Qed.

Lemma run_pop_times sz names :
  (0 < sz)%nat →
  ∀ s st, run sz (pop_times (length names))
            (emit [] (set_profile_stack (s ++ pushed names) st))
          = Ok (tt, emit (pop_events (reverse names)) (set_profile_stack s st)).
Proof.
  intros Hsz. induction names as [|n names IH] using rev_ind; intros s st.
  - simpl. unfold pushed. simpl. rewrite app_nil_r. reflexivity.
  - rewrite length_app, Nat.add_1_r. unfold pop_times. cbn [replicate run dispatch].
    unfold bind.
    rewrite (pop_profile_region_snoc _ _ (s ++ pushed names)
               (mk_profile_entry n true [call_start]))
      by (try exact Hsz; simpl; unfold pushed; rewrite fmap_app, app_assoc; reflexivity).
    rewrite emit_emit_stack. cbn [app key].
    rewrite <- (emit_emit_stack [ev_stop n; ev_destruct n] [] (s ++ pushed names) s st) at 1.
    fold (pop_times (length names)). rewrite IH, emit_emit_stack.
    rewrite reverse_snoc. reflexivity.
Qed.

(** Regions unwind in reverse.  Pushing a list of regions and then popping as
    many brings the stack back to what it was; the bundles are constructed
    and started in the order of the pushes and stopped and destroyed in the
    opposite order, and the profile map is not involved. *)
Theorem nested_regions_unwind sz names st :
  (0 < sz)%nat →
  ∃ st1 st2,
    run sz (push_all names) st = Ok (tt, st1)
    ∧ profile_stack st1 = profile_stack st ++ pushed names
    ∧ run sz (pop_times (length names)) st1 = Ok (tt, st2)
    ∧ run sz (push_all names ++ pop_times (length names)) st = Ok (tt, st2)
    ∧ profile_stack st2 = profile_stack st
    ∧ profile_map st2 = profile_map st
    ∧ trace st2 = trace st ++ push_events names ++ pop_events (reverse names).
Proof.
  intros Hsz.
  pose proof (run_push_all sz names Hsz (profile_stack st) st) as Hpush.
  rewrite emit_nil_stack in Hpush.
  pose proof (run_pop_times sz names Hsz (profile_stack st)
                (emit (push_events names) st)) as Hpop.
  assert (Hmid : emit [] (set_profile_stack (profile_stack st ++ pushed names)
                            (emit (push_events names) st))
                 = emit (push_events names)
                     (set_profile_stack (profile_stack st ++ pushed names) st)).
  { unfold emit, set_profile_stack. simpl. rewrite app_nil_r. reflexivity. }
  rewrite Hmid in Hpop.
  eexists. eexists.
  split; [exact Hpush|]. split; [reflexivity|].
  split; [exact Hpop|].
  split; [exact (run_app_ok _ _ _ _ _ _ Hpush Hpop)|].
  split; [reflexivity|]. split; [reflexivity|].
  simpl. rewrite app_assoc. reflexivity.
Qed.

Lemma nested_regions_unwind_witness :
  ∃ st1 st2,
    run 1 (push_all ["outer"; "middle"; "inner"]) example_two_kernels = Ok (tt, st1)
    ∧ profile_stack st1
      = profile_stack example_two_kernels ++ pushed ["outer"; "middle"; "inner"]
    ∧ run 1 (pop_times (length ["outer"; "middle"; "inner"])) st1 = Ok (tt, st2)
    ∧ run 1 (push_all ["outer"; "middle"; "inner"]
             ++ pop_times (length ["outer"; "middle"; "inner"])) example_two_kernels
      = Ok (tt, st2)
    ∧ profile_stack st2 = profile_stack example_two_kernels
    ∧ profile_map st2 = profile_map example_two_kernels
    ∧ trace st2 = trace example_two_kernels
                  ++ push_events ["outer"; "middle"; "inner"]
                  ++ pop_events (reverse ["outer"; "middle"; "inner"]).
Proof.
  apply (nested_regions_unwind 1 ["outer"; "middle"; "inner"] example_two_kernels). lia.
Defined.

(** ** The component selection of [kokkosp_init_library] *)

Lemma find_app_r needle x y :
  is_Some (find needle y) → is_Some (find needle (x +:+ y)).
Proof.
  intros Hy. induction x as [|c x IH]; [exact Hy|].
  change (String c x +:+ y) with (String c (x +:+ y)). cbn [find].
  destruct (String.prefix needle (String c (x +:+ y))); [eauto|].
  destruct IH as [i Hi]. rewrite Hi. simpl. eauto.
Qed.

(** With KOKKOS_ROOFLINE set, the selection always names a roofline
    component: either the value of KOKKOS_TIMEMORY_COMPONENTS does, in any
    letter case, or the two roofline components are appended to it. *)
Theorem roofline_always_selected env_components :
  is_Some (find "roofline" (selected_components true env_components)).
Proof.
  unfold selected_components. cbn zeta.
  set (r := transform_tolower (get_env env_components "")).
  destruct (find "roofline" r) as [i|] eqn:E.
  - rewrite bool_decide_eq_false_2 by discriminate. simpl. rewrite E. eauto.
  - rewrite bool_decide_eq_true_2 by reflexivity. cbn [andb TIMEMORY_JOIN].
    apply find_app_r. vm_compute. eauto.
Qed.

Lemma tolower_not_upper c : is_upper (tolower c) = false.
Proof. destruct c as [[] [] [] [] [] [] [] []]; reflexivity. Qed.

Lemma tolower_idemp c : tolower (tolower c) = tolower c.
Proof. destruct c as [[] [] [] [] [] [] [] []]; reflexivity. Qed.

Lemma transform_tolower_no_upper s : no_upper (transform_tolower s) = true.
Proof.
  induction s as [|c s IH]; [reflexivity|].
  simpl. rewrite tolower_not_upper, IH. reflexivity.
Qed.

Lemma transform_tolower_idemp s :
  transform_tolower (transform_tolower s) = transform_tolower s.
Proof.
  induction s as [|c s IH]; [reflexivity|].
  simpl. rewrite tolower_idemp, IH. reflexivity.
Qed.

Lemma no_upper_app s t : no_upper (s +:+ t) = no_upper s && no_upper t.
Proof.
  induction s as [|c s IH]; [reflexivity|].
  change (String c s +:+ t) with (String c (s +:+ t)). simpl.
  rewrite IH, andb_assoc. reflexivity.
Qed.

(** The selection is in lower case whatever the environment holds, and the
    letter case of KOKKOS_TIMEMORY_COMPONENTS makes no difference to it. *)
Theorem selected_components_lower_case use_roofline env_components :
  no_upper (selected_components use_roofline env_components) = true
  ∧ selected_components use_roofline (transform_tolower <$> env_components)
    = selected_components use_roofline env_components.
Proof.
  split.
  - unfold selected_components. cbn zeta.
    set (r := transform_tolower _).
    assert (Hr : no_upper r = true) by apply transform_tolower_no_upper.
    destruct (use_roofline && bool_decide (find "roofline" r = None)); [|exact Hr].
    cbn [TIMEMORY_JOIN]. rewrite no_upper_app, Hr. reflexivity.
  - unfold selected_components. cbn zeta.
    destruct env_components as [v|]; [|reflexivity].
    cbn [fmap option_fmap option_map get_env].
    rewrite transform_tolower_idemp. reflexivity.
Qed.

(** Without KOKKOS_ROOFLINE nothing is appended: the selection is the value
    of KOKKOS_TIMEMORY_COMPONENTS in lower case, or wall clock and peak
    resident memory when the variable is not set. *)
Example selected_components_default :
  selected_components false None = "wall_clock;peak_rss"
  ∧ selected_components false (Some "Wall_Clock;CPU_UTIL") = "wall_clock;cpu_util"
  ∧ selected_components true (Some "CPU_Roofline_Flops") = "cpu_roofline_flops".
Proof. repeat split; vm_compute; reflexivity. Qed.
